(** * Model assembly pipeline of LLaMA-Factory: [llmtuner/model/loader.py]

    A shallow embedding of [load_model_and_tokenizer] and the properties of
    its branching policy.  The loader wires together collaborators that live
    outside the file (the [transformers], [trl] and [unsloth] factories, the
    patchers, the adapter initializer); they are kept abstract, as an
    interface of fallible, world-mutating functions, and every statement is
    proved for all implementations of that interface. *)

From Stdlib Require Import ZArith.
From stdpp Require Import base option list strings gmap sorting.

Local Open Scope Z_scope.
Local Open Scope string_scope.

(** ** Data model *)

(** The attributes of [ModelArguments] the loader reads or assigns.  [rest]
    stands for the remaining attributes of the dataclass, which the loader
    only hands on to its collaborators. *)
Record ModelArguments (Dtype Rest : Type) := mkModelArguments {
  model_name_or_path : string;
  adapter_name_or_path : option (list string);
  cache_dir : option string;
  use_fast_tokenizer : bool;
  split_special_tokens : bool;
  model_revision : string;
  quantization_bit : option Z;
  use_unsloth : bool;
  hf_hub_token : option string;
  compute_dtype : option Dtype;
  model_max_length : option Z;
  rest : Rest
}.

Arguments mkModelArguments {Dtype Rest}.
Arguments model_name_or_path {Dtype Rest}.
Arguments adapter_name_or_path {Dtype Rest}.
Arguments cache_dir {Dtype Rest}.
Arguments use_fast_tokenizer {Dtype Rest}.
Arguments split_special_tokens {Dtype Rest}.
Arguments model_revision {Dtype Rest}.
Arguments quantization_bit {Dtype Rest}.
Arguments use_unsloth {Dtype Rest}.
Arguments hf_hub_token {Dtype Rest}.
Arguments compute_dtype {Dtype Rest}.
Arguments model_max_length {Dtype Rest}.
Arguments rest {Dtype Rest}.

(** [model_args.use_unsloth = b] *)
Definition assign_use_unsloth {D R} (b : bool) (a : ModelArguments D R)
  : ModelArguments D R :=
  mkModelArguments (model_name_or_path a) (adapter_name_or_path a)
    (cache_dir a) (use_fast_tokenizer a) (split_special_tokens a)
    (model_revision a) (quantization_bit a) b (hf_hub_token a)
    (compute_dtype a) (model_max_length a) (rest a).

(** [model_args.adapter_name_or_path = v] *)
Definition assign_adapter_name_or_path {D R} (v : option (list string))
    (a : ModelArguments D R) : ModelArguments D R :=
  mkModelArguments (model_name_or_path a) v
    (cache_dir a) (use_fast_tokenizer a) (split_special_tokens a)
    (model_revision a) (quantization_bit a) (use_unsloth a) (hf_hub_token a)
    (compute_dtype a) (model_max_length a) (rest a).

(** Values stored in the [config_kwargs] dictionary. *)
Inductive kwval (Obj : Type) :=
| KNone
| KBool (b : bool)
| KStr (s : string)
| KObj (o : Obj).

Arguments KNone {Obj}.
Arguments KBool {Obj}.
Arguments KStr {Obj}.
Arguments KObj {Obj}.

Definition kw_optstr {Obj} (o : option string) : kwval Obj :=
  match o with Some s => KStr s | None => KNone end.

(** The keyword arguments handed to the accelerated constructors. *)
Record UnslothKwargs (Dtype Device Rope : Type) := mkUnslothKwargs {
  uk_model_name : string;
  uk_max_seq_length : option Z;
  uk_dtype : option Dtype;
  uk_load_in_4bit : bool;
  uk_token : option string;
  uk_device_map : Device;
  uk_rope_scaling : option Rope
}.

Arguments mkUnslothKwargs {Dtype Device Rope}.

(** Truth value of an [Optional[List[str]]] in a condition. *)
Definition truthy_paths (p : option (list string)) : bool :=
  match p with
  | Some (_ :: _) => true
  | _ => false
  end.

(** ** Log records of the module logger *)

Inductive level := INFO | WARNING.

(** One constructor per message the loader can emit; the arguments are the
    values substituted into the format string. *)
Inductive message :=
| UnslothUnsupportedType (model_type : option string)
    (* "Unsloth does not support model type {}." *)
| UnslothNoAdapters
    (* "Unsloth does not support loading adapters." *)
| TaggingUnavailable
    (* "Was not able to properly tag the model, ..." *)
| LoadedValuehead (vhead_path : string)
    (* "Loaded valuehead from checkpoint: {}" *)
| ParamCounts (trainable_params all_param : Z)
    (* "trainable params: {:d} || all params: {:d} || trainable%: {:.4f}",
       the last slot being 100 * trainable_params / all_param *)
| InferenceOnly.
    (* "This IS expected that the trainable params is 0 if you are using
       model for inference only." *)

Record log_record := LogRecord { rec_level : level; rec_msg : message }.

#[global] Instance level_eq_dec : EqDecision level.
Proof. solve_decision. Defined.
#[global] Instance message_eq_dec : EqDecision message.
Proof. solve_decision. Defined.
#[global] Instance log_record_eq_dec : EqDecision log_record.
Proof. solve_decision. Defined.

(** ** The collaborators *)

(** Everything the loader calls but does not define.  [World] is the Python
    heap and process environment apart from the [ModelArguments] object and
    the loader's own locals; tokenizers, configurations and models are
    references into it.  A call may raise ([inl]) or return ([inr]), and
    leaves a new world either way.  A collaborator that is handed the
    [ModelArguments] object (or the [config_kwargs] dictionary) can assign to
    it, so it returns the object's new contents as well. *)
Record Collaborators := {
  World : Type;
  Tokenizer : Type;
  Config : Type;
  Model : Type;
  Dtype : Type;
  Device : Type;
  RopeScaling : Type;
  StateDict : Type;
  FinetuningArguments : Type;
  Rest : Type;
  KwObj : Type;
  Exn : Type;

  (* extras.misc *)
  try_download_model_from_ms :
    ModelArguments Dtype Rest -> World ->
    (Exn + unit) * ModelArguments Dtype Rest * World;
  get_current_device : World -> Device;
  count_parameters : Model -> World -> (Exn + Z * Z) * World;

  (* transformers *)
  AutoTokenizer_from_pretrained :
    string -> bool -> bool -> string -> gmap string (kwval KwObj) -> World ->
    (Exn + Tokenizer) * World;
  AutoConfig_from_pretrained :
    string -> gmap string (kwval KwObj) -> World -> (Exn + Config) * World;
  AutoModelForCausalLM_from_pretrained :
    string -> Config -> option Dtype -> bool -> gmap string (kwval KwObj) ->
    World -> (Exn + Model) * World;
  is_deepspeed_zero3_enabled : World -> bool;

  (* unsloth; [import_unsloth] is the statement
     [from unsloth import FastLlamaModel, FastMistralModel], which runs the
     package on its first import and raises when the package, or one of the
     two names, is missing *)
  import_unsloth : World -> (Exn + unit) * World;
  FastLlamaModel_from_pretrained :
    UnslothKwargs Dtype Device RopeScaling -> World -> (Exn + Model) * World;
  FastMistralModel_from_pretrained :
    UnslothKwargs Dtype Device RopeScaling -> World -> (Exn + Model) * World;

  (* trl *)
  AutoModelForCausalLMWithValueHead_from_pretrained :
    Model -> World -> (Exn + Model) * World;

  (* .patcher *)
  patch_tokenizer : Tokenizer -> World -> (Exn + unit) * World;
  patch_config :
    Config -> Tokenizer -> ModelArguments Dtype Rest ->
    gmap string (kwval KwObj) -> bool -> World ->
    (Exn + unit) * ModelArguments Dtype Rest * gmap string (kwval KwObj)
    * World;
  patch_model :
    Model -> Tokenizer -> ModelArguments Dtype Rest -> bool -> World ->
    (Exn + unit) * ModelArguments Dtype Rest * World;
  patch_valuehead_model : Model -> World -> (Exn + unit) * World;

  (* .adapter and .utils *)
  init_adapter :
    Model -> ModelArguments Dtype Rest -> FinetuningArguments -> bool ->
    World -> (Exn + Model) * ModelArguments Dtype Rest * World;
  register_autoclass :
    Config -> Model -> Tokenizer -> World -> (Exn + unit) * World;
  load_valuehead_params :
    string -> ModelArguments Dtype Rest -> World ->
    (Exn + option StateDict) * ModelArguments Dtype Rest * World;

  (* attribute probes, [getattr(o, name, None)] and [hasattr(o, name)];
     like [get_current_device] and [is_deepspeed_zero3_enabled] above they
     read the world and return, without changing it *)
  getattr_model_type : Config -> World -> option string;
  getattr_rope_scaling : Config -> World -> option RopeScaling;
  hasattr_add_model_tags : Model -> World -> bool;
  (* truth value of [getattr(model, "quantization_method", None)] *)
  getattr_quantization_method : Model -> World -> bool;

  (* methods of the model object *)
  model_add_model_tags : Model -> list string -> World -> (Exn + unit) * World;
  model_load_state_dict :
    Model -> StateDict -> bool -> World -> (Exn + unit) * World;
  model_requires_grad_ : Model -> bool -> World -> (Exn + unit) * World;
  model_to : Model -> option Dtype -> World -> (Exn + Model) * World;
  model_eval : Model -> World -> (Exn + unit) * World;
  model_train : Model -> World -> (Exn + unit) * World
}.

(** ** The loader *)

Section Loader.
Context (E : Collaborators).

Abbreviation margs := (ModelArguments (Dtype E) (Rest E)).
Abbreviation kwargs := (gmap string (kwval (KwObj E))).
Abbreviation ukwargs := (UnslothKwargs (Dtype E) (Device E) (RopeScaling E)).

(** Calls to collaborators, with the arguments they were given; the import
    of line 58 is one of them. *)
Inductive call :=
| Ctry_download_model_from_ms (model_args : margs)
| CAutoTokenizer_from_pretrained (name : string)
    (use_fast split_special_tokens : bool) (padding_side : string)
    (config_kwargs : kwargs)
| Cpatch_tokenizer (tokenizer : Tokenizer E)
| CAutoConfig_from_pretrained (name : string) (config_kwargs : kwargs)
| Cpatch_config (config : Config E) (tokenizer : Tokenizer E)
    (model_args : margs) (config_kwargs : kwargs) (is_trainable : bool)
| Cimport_unsloth
| CFastLlamaModel_from_pretrained (unsloth_kwargs : ukwargs)
| CFastMistralModel_from_pretrained (unsloth_kwargs : ukwargs)
| CAutoModelForCausalLM_from_pretrained (name : string) (config : Config E)
    (torch_dtype : option (Dtype E)) (low_cpu_mem_usage : bool)
    (config_kwargs : kwargs)
| Cadd_model_tags (model : Model E) (tags : list string)
| Cpatch_model (model : Model E) (tokenizer : Tokenizer E)
    (model_args : margs) (is_trainable : bool)
| Cregister_autoclass (config : Config E) (model : Model E)
    (tokenizer : Tokenizer E)
| Cinit_adapter (model : Model E) (model_args : margs)
    (finetuning_args : FinetuningArguments E) (is_trainable : bool)
| CAutoModelForCausalLMWithValueHead_from_pretrained (model : Model E)
| Cpatch_valuehead_model (model : Model E)
| Cload_valuehead_params (vhead_path : string) (model_args : margs)
| Cload_state_dict (model : Model E) (vhead_params : StateDict E)
    (strict : bool)
| Crequires_grad_ (model : Model E) (requires_grad : bool)
| Cto (model : Model E) (dtype : option (Dtype E))
| Ceval (model : Model E)
| Ctrain (model : Model E)
| Ccount_parameters (model : Model E).

(** What a call returned. *)
Inductive retv :=
| RNone
| RTokenizer (t : Tokenizer E)
| RConfig (c : Config E)
| RModel (m : Model E)
| RParams (p : option (StateDict E))
| RCounts (trainable_params all_param : Z).

(** A call together with its outcome: the exception it raised, or the value
    it returned. *)
Record event := Event { ev_call : call; ev_result : Exn E + retv }.

(** Exceptions leaving the loader: those of its own expressions, and those
    raised by a collaborator. *)
Inductive error :=
| ZeroDivisionError
| IndexError
| Propagated (e : Exn E).

Inductive result (A : Type) :=
| Ok (a : A)
| Raise (e : error).

Arguments Ok {A}.
Arguments Raise {A}.

(** The state the loader runs in: the caller's [model_args] object, the
    world, the records emitted on the module logger, the messages already
    emitted through [warning_once] in this process, and the collaborator
    calls made so far (oldest first). *)
Record state := State {
  model_args : margs;
  world : World E;
  records : list log_record;
  warned_once : list message;
  trace : list event
}.

Definition M (A : Type) : Type := state -> result A * state.

Definition ret {A} (a : A) : M A := fun s => (Ok a, s).

Definition bind {A B} (m : M A) (f : A -> M B) : M B :=
  fun s =>
    match m s with
    | (Ok a, s') => f a s'
    | (Raise e, s') => (Raise e, s')
    end.

Definition raise {A} (e : error) : M A := fun s => (Raise e, s).

Notation "x <- c1 ;; c2" := (bind c1 (fun x => c2))
  (at level 100, c1 at next level, right associativity).
Notation "c1 ;; c2" := (bind c1 (fun _ => c2))
  (at level 100, right associativity).

(** Reading and assigning attributes of [model_args]. *)
Definition get_model_args : M margs := fun s => (Ok (model_args s), s).

Definition set_model_args (f : margs -> margs) : M unit :=
  fun s =>
    (Ok tt,
     State (f (model_args s)) (world s) (records s) (warned_once s) (trace s)).

(** Reading the world without changing it. *)
Definition probe {A} (f : World E -> A) : M A := fun s => (Ok (f (world s)), s).

(** [logger.info], [logger.warning]. *)
Definition emit (l : level) (msg : message) : M unit :=
  fun s =>
    (Ok tt,
     State (model_args s) (world s) (records s ++ [LogRecord l msg])
       (warned_once s) (trace s)).

(** [logger.warning_once]: the warning is emitted the first time the message
    is seen in the process and dropped afterwards. *)
Definition warning_once (msg : message) : M unit :=
  fun s =>
    if decide (msg ∈ warned_once s) then (Ok tt, s)
    else
      (Ok tt,
       State (model_args s) (world s) (records s ++ [LogRecord WARNING msg])
         (msg :: warned_once s) (trace s)).

Definition outcome {A} (inj : A -> retv) (r : Exn E + A) : Exn E + retv :=
  match r with inl e => inl e | inr a => inr (inj a) end.

Definition deliver {A} (r : Exn E + A) (s : state) : result A * state :=
  match r with
  | inl e => (Raise (Propagated e), s)
  | inr a => (Ok a, s)
  end.

(** A call that is not given [model_args]. *)
Definition foreign {A} (c : call) (inj : A -> retv)
    (f : World E -> (Exn E + A) * World E) : M A :=
  fun s =>
    let '(r, w) := f (world s) in
    deliver r
      (State (model_args s) w (records s) (warned_once s)
         (trace s ++ [Event c (outcome inj r)])).

(** A call that is given [model_args] and may assign to it. *)
Definition foreign_ma {A} (c : margs -> call) (inj : A -> retv)
    (f : margs -> World E -> (Exn E + A) * margs * World E) : M A :=
  fun s =>
    let '(r, a, w) := f (model_args s) (world s) in
    deliver r
      (State a w (records s) (warned_once s)
         (trace s ++ [Event (c (model_args s)) (outcome inj r)])).

(** [patch_config] is also given the [config_kwargs] dictionary; the
    dictionary as it leaves the call is returned to the loader. *)
Definition call_patch_config (config : Config E) (tokenizer : Tokenizer E)
    (config_kwargs : kwargs) (is_trainable : bool) : M kwargs :=
  fun s =>
    let '(r, a, kw, w) :=
      patch_config E config tokenizer (model_args s) config_kwargs
        is_trainable (world s) in
    deliver (match r with inl e => inl e | inr _ => inr kw end)
      (State a w (records s) (warned_once s)
         (trace s ++
          [Event (Cpatch_config config tokenizer (model_args s) config_kwargs
                    is_trainable)
             (outcome (fun _ => RNone) r)])).

Definition unit_ret (_ : unit) : retv := RNone.
Definition counts_ret (p : Z * Z) : retv := RCounts p.1 p.2.

(** Lines 35-54: resolve the artifact, build and patch tokenizer and
    configuration. *)
Definition load_tokenizer_and_config (is_trainable : bool)
  : M (Tokenizer E * Config E * kwargs) :=
  foreign_ma Ctry_download_model_from_ms unit_ret
    (try_download_model_from_ms E) ;;
  a <- get_model_args ;;
  let config_kwargs : kwargs :=
    <["trust_remote_code" := KBool true]>
      (<["cache_dir" := kw_optstr (cache_dir a)]>
         (<["revision" := KStr (model_revision a)]>
            (<["token" := kw_optstr (hf_hub_token a)]> ∅))) in
  tokenizer <-
    foreign
      (CAutoTokenizer_from_pretrained (model_name_or_path a)
         (use_fast_tokenizer a) (split_special_tokens a) "right"
         config_kwargs)
      RTokenizer
      (AutoTokenizer_from_pretrained E (model_name_or_path a)
         (use_fast_tokenizer a) (split_special_tokens a) "right"
         config_kwargs) ;;
  foreign (Cpatch_tokenizer tokenizer) unit_ret
    (patch_tokenizer E tokenizer) ;;
  a <- get_model_args ;;
  config <-
    foreign (CAutoConfig_from_pretrained (model_name_or_path a) config_kwargs)
      RConfig
      (AutoConfig_from_pretrained E (model_name_or_path a) config_kwargs) ;;
  config_kwargs <-
    call_patch_config config tokenizer config_kwargs is_trainable ;;
  ret (tokenizer, config, config_kwargs).

(** Lines 56-79: the accelerated construction path.  Returns the value of the
    local [model] on leaving the block ([None] when no model was built).
    The import on line 58 comes first, before the family is looked at, and
    ends the run when it raises; of the pair an accelerated constructor
    returns only the model is kept, as in [model, _ = ...]. *)
Definition accelerated_construction (config : Config E) (is_trainable : bool)
  : M (option (Model E)) :=
  a <- get_model_args ;;
  if is_trainable && use_unsloth a then
    foreign Cimport_unsloth unit_ret (import_unsloth E) ;;
    a <- get_model_args ;;
    device <- probe (get_current_device E) ;;
    rope <- probe (getattr_rope_scaling E config) ;;
    let unsloth_kwargs :=
      mkUnslothKwargs (model_name_or_path a) (model_max_length a)
        (compute_dtype a) (bool_decide (quantization_bit a = Some 4))
        (hf_hub_token a) device rope in
    model_type <- probe (getattr_model_type E config) ;;
    model <-
      (if bool_decide (model_type = Some "llama") then
         m <- foreign (CFastLlamaModel_from_pretrained unsloth_kwargs) RModel
                (FastLlamaModel_from_pretrained E unsloth_kwargs) ;;
         ret (Some m)
       else if bool_decide (model_type = Some "mistral") then
         m <- foreign (CFastMistralModel_from_pretrained unsloth_kwargs) RModel
                (FastMistralModel_from_pretrained E unsloth_kwargs) ;;
         ret (Some m)
       else
         emit WARNING (UnslothUnsupportedType model_type) ;;
         set_model_args (assign_use_unsloth false) ;;
         ret None) ;;
    a <- get_model_args ;;
    (if truthy_paths (adapter_name_or_path a) then
       set_model_args (assign_adapter_name_or_path None) ;;
       emit WARNING UnslothNoAdapters
     else ret tt) ;;
    ret model
  else ret None.

(** Lines 81-99: the standard construction path, taken when [model] is still
    [None], with the provenance tag. *)
Definition standard_construction (config : Config E) (config_kwargs : kwargs)
    (model : option (Model E)) : M (Model E) :=
  match model with
  | Some m => ret m
  | None =>
    a <- get_model_args ;;
    zero3 <- probe (is_deepspeed_zero3_enabled E) ;;
    m <-
      foreign
        (CAutoModelForCausalLM_from_pretrained (model_name_or_path a) config
           (compute_dtype a) (negb zero3) config_kwargs)
        RModel
        (AutoModelForCausalLM_from_pretrained E (model_name_or_path a) config
           (compute_dtype a) (negb zero3) config_kwargs) ;;
    taggable <- probe (hasattr_add_model_tags E m) ;;
    (if taggable then
       foreign (Cadd_model_tags m ["llama-factory"]) unit_ret
         (model_add_model_tags E m ["llama-factory"])
     else warning_once TaggingUnavailable) ;;
    ret m
  end.

(** Lines 56-99: the constructor selector. *)
Definition construct_model (config : Config E) (config_kwargs : kwargs)
    (is_trainable : bool) : M (Model E) :=
  model <- accelerated_construction config is_trainable ;;
  standard_construction config config_kwargs model.

(** Lines 101-104: patch the model, then inject the adapter. *)
Definition patch_and_adapt (tokenizer : Tokenizer E) (config : Config E)
    (model : Model E) (finetuning_args : FinetuningArguments E)
    (is_trainable : bool) : M (Model E) :=
  foreign_ma (fun a => Cpatch_model model tokenizer a is_trainable) unit_ret
    (fun a => patch_model E model tokenizer a is_trainable) ;;
  foreign (Cregister_autoclass config model tokenizer) unit_ret
    (register_autoclass E config model tokenizer) ;;
  foreign_ma (fun a => Cinit_adapter model a finetuning_args is_trainable)
    RModel
    (fun a => init_adapter E model a finetuning_args is_trainable).

(** Lines 110-113: where the value head is restored from.  Indexing an
    empty list with [-1] raises. *)
Definition vhead_source (a : margs) : result string :=
  match adapter_name_or_path a with
  | Some paths =>
    match last paths with
    | Some p => Ok p
    | None => Raise IndexError
    end
  | None => Ok (model_name_or_path a)
  end.

(** Lines 106-118: the value-head composer. *)
Definition compose_valuehead (model : Model E) (add_valuehead : bool)
  : M (Model E) :=
  if add_valuehead then
    model <-
      foreign (CAutoModelForCausalLMWithValueHead_from_pretrained model)
        RModel (AutoModelForCausalLMWithValueHead_from_pretrained E model) ;;
    foreign (Cpatch_valuehead_model model) unit_ret
      (patch_valuehead_model E model) ;;
    a <- get_model_args ;;
    vhead_path <- (fun s => (vhead_source a, s)) ;;
    vhead_params <-
      foreign_ma (Cload_valuehead_params vhead_path) RParams
        (load_valuehead_params E vhead_path) ;;
    match vhead_params with
    | Some params =>
      foreign (Cload_state_dict model params false) unit_ret
        (model_load_state_dict E model params false) ;;
      emit INFO (LoadedValuehead vhead_path) ;;
      ret model
    | None => ret model
    end
  else ret model.

(** Lines 120-125: the mode finalizer. *)
Definition finalize_mode (model : Model E) (is_trainable : bool)
  : M (Model E) :=
  if negb is_trainable then
    foreign (Crequires_grad_ model false) unit_ret
      (model_requires_grad_ E model false) ;;
    quantized <- probe (getattr_quantization_method E model) ;;
    model <-
      (if negb quantized then
         a <- get_model_args ;;
         foreign (Cto model (compute_dtype a)) RModel
           (model_to E model (compute_dtype a))
       else ret model) ;;
    foreign (Ceval model) unit_ret (model_eval E model) ;;
    ret model
  else
    foreign (Ctrain model) unit_ret (model_train E model) ;;
    ret model.

(** Lines 127-135: the parameter report.  [100 * trainable_params /
    all_param] is evaluated before [logger.info] is called. *)
Definition report_parameters (model : Model E) (is_trainable : bool)
  : M unit :=
  counts <-
    foreign (Ccount_parameters model) counts_ret (count_parameters E model) ;;
  let '(trainable_params, all_param) := counts in
  (if bool_decide (all_param = 0) then raise ZeroDivisionError
   else emit INFO (ParamCounts trainable_params all_param)) ;;
  if negb is_trainable then emit INFO InferenceOnly else ret tt.

Definition load_model_and_tokenizer
    (finetuning_args : FinetuningArguments E)
    (is_trainable add_valuehead : bool) : M (Model E * Tokenizer E) :=
  loaded <- load_tokenizer_and_config is_trainable ;;
  let '(tokenizer, config, config_kwargs) := loaded in
  model <- construct_model config config_kwargs is_trainable ;;
  model <- patch_and_adapt tokenizer config model finetuning_args
             is_trainable ;;
  model <- compose_valuehead model add_valuehead ;;
  model <- finalize_mode model is_trainable ;;
  report_parameters model is_trainable ;;
  ret (model, tokenizer).

End Loader.

Arguments Ok {E A}.
Arguments Raise {E A}.
Arguments Event {E}.
Arguments State {E}.
Arguments model_args {E}.
Arguments world {E}.
Arguments records {E}.
Arguments warned_once {E}.
Arguments trace {E}.
Arguments ev_call {E}.
Arguments ev_result {E}.
Arguments ZeroDivisionError {E}.
Arguments IndexError {E}.
Arguments Propagated {E}.
Arguments RNone {E}.
Arguments RTokenizer {E}.
Arguments RConfig {E}.
Arguments RModel {E}.
Arguments RParams {E}.
Arguments RCounts {E}.
Arguments bind {E A B}.
Arguments ret {E A}.
Arguments raise {E A}.

(** ** A concrete collaborator set

    Used to run the loader on explicit inputs.  The world counts the calls
    made so far; a model is named after the factory that built it; a
    [scenario] fixes what the probes answer and which call, if any, raises. *)

Module Toy.

Record scenario := Scenario {
  family : option string;       (* config.model_type *)
  taggable : bool;              (* the model has add_model_tags *)
  quantized : bool;             (* the model has a quantization_method *)
  vhead_found : bool;           (* the source holds value-head weights *)
  counts : Z * Z;               (* what count_parameters returns *)
  raising : option string       (* the collaborator that raises *)
}.

Definition answer {A} (sc : scenario) (name : string) (a : A) (w : nat)
  : (string + A) * nat :=
  (if bool_decide (raising sc = Some name) then inl name else inr a, S w).

Definition answer_ma {A M} (sc : scenario) (name : string) (a : A) (ma : M)
    (w : nat) : (string + A) * M * nat :=
  (if bool_decide (raising sc = Some name) then inl name else inr a, ma, S w).

Definition collaborators (sc : scenario) : Collaborators := {|
  World := nat;
  Tokenizer := string;
  Config := string;
  Model := string;
  Dtype := string;
  Device := string;
  RopeScaling := unit;
  StateDict := unit;
  FinetuningArguments := unit;
  Rest := unit;
  KwObj := Empty_set;
  Exn := string;
  try_download_model_from_ms := answer_ma sc "try_download_model_from_ms" tt;
  get_current_device := fun _ => "cuda:0";
  count_parameters := fun _ => answer sc "count_parameters" (counts sc);
  AutoTokenizer_from_pretrained := fun name _ _ _ _ =>
    answer sc "AutoTokenizer" ("tokenizer of " ++ name);
  AutoConfig_from_pretrained := fun name _ =>
    answer sc "AutoConfig" ("config of " ++ name);
  AutoModelForCausalLM_from_pretrained := fun _ _ _ _ _ =>
    answer sc "AutoModelForCausalLM" "AutoModelForCausalLM";
  is_deepspeed_zero3_enabled := fun _ => false;
  import_unsloth := answer sc "unsloth" tt;
  FastLlamaModel_from_pretrained := fun _ =>
    answer sc "FastLlamaModel" "FastLlamaModel";
  FastMistralModel_from_pretrained := fun _ =>
    answer sc "FastMistralModel" "FastMistralModel";
  AutoModelForCausalLMWithValueHead_from_pretrained := fun m =>
    answer sc "AutoModelForCausalLMWithValueHead" ("ValueHead " ++ m);
  patch_tokenizer := fun _ => answer sc "patch_tokenizer" tt;
  patch_config := fun _ _ ma kw _ w =>
    (if bool_decide (raising sc = Some "patch_config") then inl "patch_config"
     else inr tt, ma, kw, S w);
  patch_model := fun _ _ ma _ => answer_ma sc "patch_model" tt ma;
  patch_valuehead_model := fun _ => answer sc "patch_valuehead_model" tt;
  init_adapter := fun m ma _ _ => answer_ma sc "init_adapter" m ma;
  register_autoclass := fun _ _ _ => answer sc "register_autoclass" tt;
  load_valuehead_params := fun _ =>
    answer_ma sc "load_valuehead_params"
      (if vhead_found sc then Some tt else None);
  getattr_model_type := fun _ _ => family sc;
  getattr_rope_scaling := fun _ _ => None;
  hasattr_add_model_tags := fun _ _ => taggable sc;
  getattr_quantization_method := fun _ _ => quantized sc;
  model_add_model_tags := fun _ _ => answer sc "add_model_tags" tt;
  model_load_state_dict := fun _ _ _ => answer sc "load_state_dict" tt;
  model_requires_grad_ := fun _ _ => answer sc "requires_grad_" tt;
  model_to := fun m _ => answer sc "to" m;
  model_eval := fun _ => answer sc "eval" tt;
  model_train := fun _ => answer sc "train" tt
|}.

(** The caller's arguments: a model name, the opt-in flag and the adapter
    path list; everything else at its default. *)
Definition args (name : string) (unsloth : bool)
    (adapters : option (list string)) : ModelArguments string unit :=
  mkModelArguments name adapters None true false "main" None unsloth None
    (Some "float16") None tt.

(** A fresh process: nothing logged, nothing called. *)
Definition start (sc : scenario) (a : ModelArguments string unit)
  : state (collaborators sc) :=
  State (E := collaborators sc) a O [] [] [].

Definition load (sc : scenario) (a : ModelArguments string unit)
    (is_trainable add_valuehead : bool) :=
  load_model_and_tokenizer (collaborators sc) tt is_trainable add_valuehead
    (start sc a).

(** A gpt2 model: not a family the accelerated constructors exist for. *)
Definition gpt2 : scenario :=
  Scenario (Some "gpt2") true false false (3, 10) None.

(** A llama model, one whose class has no [add_model_tags]. *)
Definition llama : scenario :=
  Scenario (Some "llama") false false false (3, 10) None.

(** A gpt2 model none of whose ten parameters is trainable. *)
Definition nothing_trainable : scenario :=
  Scenario (Some "gpt2") true false false (0, 10) None.

(** The [config_kwargs] the loader builds from [args]. *)
Definition kwargs0 : gmap string (kwval Empty_set) :=
  <["trust_remote_code"%string := KBool true]>
    (<["cache_dir"%string := KNone]>
       (<["revision"%string := KStr "main"]>
          (<["token"%string := KNone]> ∅))).

(** A process in which [AutoConfig.from_pretrained] raises. *)
Definition config_raises : scenario :=
  Scenario (Some "gpt2"%string) true false false (3, 10)
    (Some "AutoConfig"%string).

Definition R : Collaborators := collaborators config_raises.




(** The collaborators of the gpt2 scenario, and a fresh process. *)
Definition G : Collaborators := collaborators gpt2.

Definition start_gpt2 (unsloth : bool) : state G :=
  start gpt2 (args "m" unsloth None).


(** A model without parameters. *)
Definition empty_model : scenario :=
  Scenario (Some "gpt2"%string) true false false (0, 0) None.

Definition Z0 : Collaborators := collaborators empty_model.

Definition start_Z0 : state Z0 :=
  start empty_model (args "m" false None).

Definition counted_nothing : event Z0 :=
  Event (E := Z0) (Ccount_parameters Z0 "AutoModelForCausalLM"%string)
    (inr (RCounts (E := Z0) 0 0)).

(** A quantized gpt2 model. *)
Definition quantized_gpt2 : scenario :=
  Scenario (Some "gpt2"%string) true true false (3, 10) None.

Definition Q : Collaborators := collaborators quantized_gpt2.

Definition start_Q : state Q :=
  start quantized_gpt2 (args "m" false None).

(** A gpt2 model with value-head weights at the restoration source. *)
Definition with_vhead : scenario :=
  Scenario (Some "gpt2"%string) true false true (3, 10) None.

Definition V : Collaborators := collaborators with_vhead.

Definition start_V : state V :=
  start with_vhead (args "m" false (Some ["a"; "b"]%string)).

Definition params_requested : event G :=
  Event (E := G)
    (Cload_valuehead_params G "m"%string (args "m" false None))
    (inr (RParams (E := G) None)).

(** A gpt2 model whose class has no [add_model_tags]. *)
Definition untaggable : scenario :=
  Scenario (Some "gpt2"%string) false false false (3, 10) None.

Definition U : Collaborators := collaborators untaggable.

Definition start_U : state U :=
  start untaggable (args "m" false None).

(** A process in which the [unsloth] package is not installed. *)
Definition unsloth_missing : scenario :=
  Scenario (Some "gpt2"%string) true false false (3, 10)
    (Some "unsloth"%string).

Definition N : Collaborators := collaborators unsloth_missing.

Definition start_N : state N := start unsloth_missing (args "m" true None).

(** A process in which the artifact resolver raises. *)
Definition resolver_raises : scenario :=
  Scenario (Some "gpt2"%string) true false false (3, 10)
    (Some "try_download_model_from_ms"%string).

Definition D : Collaborators := collaborators resolver_raises.


(** The collaborators of the llama scenario; the opt-in flag is set. *)
Definition L : Collaborators := collaborators llama.

Definition start_L : state L := start llama (args "m" true None).

Definition unsloth_imported : event L :=
  Event (E := L) (Cimport_unsloth L) (inr (RNone (E := L))).

Definition llama_built : event L :=
  Event (E := L)
    (CFastLlamaModel_from_pretrained L
       (mkUnslothKwargs "m"%string None (Some "float16"%string) false None
          "cuda:0"%string None))
    (inr (RModel (E := L) "FastLlamaModel"%string)).

End Toy.

Local Open Scope list_scope.

(** ** Vocabulary of the statements *)

(** The stages of the pipeline, and the stage each call belongs to. *)
Inductive stage := Resolve | Construct | Adapt | ValueHead | Finalize | Report.

#[global] Instance stage_eq_dec : EqDecision stage.
Proof. solve_decision. Defined.

Section Vocabulary.
Context {E : Collaborators}.
Implicit Types (s : state E) (evs : list (event E)) (ev : event E).
Implicit Types (a : ModelArguments (Dtype E) (Rest E)).

Definition stage_of (c : call E) : stage :=
  match c with
  | Ctry_download_model_from_ms _ _
  | CAutoTokenizer_from_pretrained _ _ _ _ _ _
  | Cpatch_tokenizer _ _
  | CAutoConfig_from_pretrained _ _ _
  | Cpatch_config _ _ _ _ _ _ => Resolve
  | Cimport_unsloth _
  | CFastLlamaModel_from_pretrained _ _
  | CFastMistralModel_from_pretrained _ _
  | CAutoModelForCausalLM_from_pretrained _ _ _ _ _ _
  | Cadd_model_tags _ _ _ => Construct
  | Cpatch_model _ _ _ _ _
  | Cregister_autoclass _ _ _ _
  | Cinit_adapter _ _ _ _ _ => Adapt
  | CAutoModelForCausalLMWithValueHead_from_pretrained _ _
  | Cpatch_valuehead_model _ _
  | Cload_valuehead_params _ _ _
  | Cload_state_dict _ _ _ _ => ValueHead
  | Crequires_grad_ _ _ _
  | Cto _ _ _
  | Ceval _ _
  | Ctrain _ _ => Finalize
  | Ccount_parameters _ _ => Report
  end.

Definition in_stage (X : stage) ev : Prop := stage_of (ev_call ev) = X.

(** The exception a run ended with, if any. *)
Definition failure {A} (r : result E A) : option (error E) :=
  match r with Ok _ => None | Raise e => Some e end.

(** [propagates evs x]: every call in [evs] returned, except possibly the
    last one; and the last one raised [e] exactly when the run ended with
    [e] as a propagated exception. *)
Fixpoint propagates evs (x : option (error E)) : Prop :=
  match evs with
  | [] => match x with Some (Propagated _) => False | _ => True end
  | ev :: rest =>
    match ev_result ev with
    | inr _ => propagates rest x
    | inl e => rest = [] /\ x = Some (Propagated e)
    end
  end.

(** [tspec P m]: whatever the state, [m] only appends to the trace, the
    calls it appends satisfy [P], and failures propagate. *)
Definition tspec {A} (P : event E -> Prop) (m : M E A) : Prop :=
  forall s, exists evs,
    trace (m s).2 = trace s ++ evs /\ Forall P evs /\
    propagates evs (failure (m s).1).

Definition returned ev : Prop := exists v, ev_result ev = inr v.





(** The calls of lines 101-104, up to the first one that raises, when the
    stage is entered with [model_args] holding [a] and in world [w]:
    [patch_model] runs in [w], [register_autoclass] in the world
    [patch_model] left, and [init_adapter] in the world
    [register_autoclass] left, with [model_args] as [patch_model] left
    them. *)
Inductive adapting (tok : Tokenizer E) (cfg : Config E) (m : Model E)
    (fa : FinetuningArguments E) (tr : bool)
    (a : ModelArguments (Dtype E) (Rest E)) (w : World E)
  : list (event E) -> Prop :=
| adapting_patch_raised e :
    (patch_model E m tok a tr w).1.1 = inl e ->
    adapting tok cfg m fa tr a w [Event (Cpatch_model E m tok a tr) (inl e)]
| adapting_register_raised e :
    (patch_model E m tok a tr w).1.1 = inr tt ->
    (register_autoclass E cfg m tok (patch_model E m tok a tr w).2).1
      = inl e ->
    adapting tok cfg m fa tr a w
      [Event (Cpatch_model E m tok a tr) (inr RNone);
       Event (Cregister_autoclass E cfg m tok) (inl e)]
| adapting_init :
    (patch_model E m tok a tr w).1.1 = inr tt ->
    (register_autoclass E cfg m tok (patch_model E m tok a tr w).2).1
      = inr tt ->
    adapting tok cfg m fa tr a w
      [Event (Cpatch_model E m tok a tr) (inr RNone);
       Event (Cregister_autoclass E cfg m tok) (inr RNone);
       Event
         (Cinit_adapter E m (patch_model E m tok a tr w).1.2 fa tr)
         (outcome E RModel
            (init_adapter E m (patch_model E m tok a tr w).1.2 fa tr
               (register_autoclass E cfg m tok
                  (patch_model E m tok a tr w).2).2).1.1)].

(** The part of the run that follows adapter injection. *)
Definition after_adapt ev : Prop :=
  in_stage ValueHead ev \/ in_stage Finalize ev \/ in_stage Report ev.

Definition finish (tokenizer : Tokenizer E) (model : Model E)
    (is_trainable add_valuehead : bool) : M E (Model E * Tokenizer E) :=
  bind (compose_valuehead E model add_valuehead) (fun model =>
  bind (finalize_mode E model is_trainable) (fun model =>
  bind (report_parameters E model is_trainable) (fun _ =>
  ret (model, tokenizer)))).


Definition before_report ev : Prop := stage_of (ev_call ev) <> Report.

(** Where the head is restored from, in the words of the specification:
    the last entry of the adapter path list when there is a list, the model
    identifier otherwise. *)
Definition restoration_source (a : ModelArguments (Dtype E) (Rest E))
    (path : string) : Prop :=
  match adapter_name_or_path a with
  | Some paths => last paths = Some path
  | None => path = model_name_or_path a
  end.

Definition is_tagging (ev : event E) : bool :=
  match ev_call ev with Cadd_model_tags _ _ _ => true | _ => false end.

(** The call line 82 makes in state [s]. *)
Definition standard_call (cfg : Config E)
    (kw : gmap string (kwval (KwObj E))) s : call E :=
  CAutoModelForCausalLM_from_pretrained E
    (model_name_or_path (model_args s)) cfg (compute_dtype (model_args s))
    (negb (is_deepspeed_zero3_enabled E (world s))) kw.

(** The families the accelerated constructors exist for. *)
Definition supported (model_type : option string) : bool :=
  bool_decide (model_type = Some "llama"%string)
  || bool_decide (model_type = Some "mistral"%string).

Definition is_accelerated (ev : event E) : bool :=
  match ev_call ev with
  | CFastLlamaModel_from_pretrained _ _
  | CFastMistralModel_from_pretrained _ _ => true
  | _ => false
  end.

(** The state a successful import of [unsloth] leaves, [w] being the world
    after it. *)
Definition imported (w : World E) s : state E :=
  State (model_args s) w (records s) (warned_once s)
    (trace s ++ [Event (Cimport_unsloth E) (inr RNone)]).

(** The same state with the opt-in flag cleared. *)
Definition opted_out s : state E :=
  State (assign_use_unsloth false (model_args s)) (world s) (records s)
    (warned_once s) (trace s).

(** The state in which the standard constructor is reached after the
    selector, in state [s] with [unsloth] imported, has fallen back from an
    unsupported family. *)
Definition fallen_back (cfg : Config E) s : state E :=
  let a := assign_use_unsloth false (model_args s) in
  let unsupported :=
    LogRecord WARNING
      (UnslothUnsupportedType (getattr_model_type E cfg (world s))) in
  if truthy_paths (adapter_name_or_path a) then
    State (assign_adapter_name_or_path None a) (world s)
      ((records s ++ [unsupported]) ++ [LogRecord WARNING UnslothNoAdapters])
      (warned_once s) (trace s)
  else
    State a (world s) (records s ++ [unsupported]) (warned_once s) (trace s).

(** The adapter path list [init_adapter] was handed. *)
Definition adapter_request (ev : event E) : option (option (list string)) :=
  match ev_call ev with
  | Cinit_adapter _ _ a _ _ => Some (adapter_name_or_path a)
  | _ => None
  end.

(** The collaborators that are handed [model_args] leave it as it is. *)
Record preserving : Prop := {
  try_download_preserves a w :
    (try_download_model_from_ms E a w).1.2 = a;
  patch_config_preserves cfg tok a kw tr w :
    (patch_config E cfg tok a kw tr w).1.1.2 = a;
  patch_model_preserves m tok a tr w :
    (patch_model E m tok a tr w).1.2 = a;
  init_adapter_preserves m a fa tr w :
    (init_adapter E m a fa tr w).1.2 = a;
  load_valuehead_params_preserves path a w :
    (load_valuehead_params E path a w).1.2 = a
}.

Definition keeps {A} (m : M E A) : Prop :=
  forall s, model_args (m s).2 = model_args s.

(** Every attribute but the opt-in flag and the adapter path list is the
    same in [a'] as in [a]. *)
Definition same_elsewhere a a' : Prop :=
  model_name_or_path a' = model_name_or_path a /\
  cache_dir a' = cache_dir a /\
  use_fast_tokenizer a' = use_fast_tokenizer a /\
  split_special_tokens a' = split_special_tokens a /\
  model_revision a' = model_revision a /\
  quantization_bit a' = quantization_bit a /\
  hf_hub_token a' = hf_hub_token a /\
  compute_dtype a' = compute_dtype a /\
  model_max_length a' = model_max_length a /\
  rest a' = rest a.

(** [a'] is [a], except that the opt-in flag may have gone from set to
    cleared and the adapter path list may have been replaced by [None], and
    either only in trainable mode with the flag set in [a]. *)
Definition only_cleared (is_trainable : bool) a a' : Prop :=
  same_elsewhere a a' /\
  (use_unsloth a' = use_unsloth a \/
   is_trainable = true /\ use_unsloth a = true /\ use_unsloth a' = false) /\
  (adapter_name_or_path a' = adapter_name_or_path a \/
   is_trainable = true /\ use_unsloth a = true /\
   adapter_name_or_path a' = None).

End Vocabulary.

(** ** What a run does, seen from outside *)

Section Observations.
Context {E : Collaborators}.
Implicit Types (s : state E) (evs : list (event E)) (ev : event E).
Implicit Types (a : ModelArguments (Dtype E) (Rest E)).

(** The calls [m] makes, and the records it logs, when run from [s]. *)
Definition emitted {A} (m : M E A) s : list (event E) :=
  drop (length (trace s)) (trace (m s).2).

Definition logged {A} (m : M E A) s : list log_record :=
  drop (length (records s)) (records (m s).2).

(** The calls and the log records of one run of the loader. *)
Definition calls (fa : FinetuningArguments E) (is_trainable add_valuehead : bool)
    s : list (event E) :=
  emitted (load_model_and_tokenizer E fa is_trainable add_valuehead) s.

Definition log_of (fa : FinetuningArguments E)
    (is_trainable add_valuehead : bool) s : list log_record :=
  logged (load_model_and_tokenizer E fa is_trainable add_valuehead) s.

(** A run, stage by stage: the stage it ended in, with what each stage
    before it returned.  The indices are the result of the run, its final
    state, the calls it made and the records it logged. *)
Inductive run_of (fa : FinetuningArguments E) (tr vh : bool) s :
    result E (Model E * Tokenizer E) -> state E -> list (event E) ->
    list log_record -> Prop :=
| ended_resolving x s1 :
    load_tokenizer_and_config E tr s = (Raise x, s1) ->
    run_of fa tr vh s (Raise x) s1
      (emitted (load_tokenizer_and_config E tr) s)
      (logged (load_tokenizer_and_config E tr) s)
| ended_constructing tok cfg kw s1 x s2 :
    load_tokenizer_and_config E tr s = (Ok (tok, cfg, kw), s1) ->
    construct_model E cfg kw tr s1 = (Raise x, s2) ->
    run_of fa tr vh s (Raise x) s2
      (emitted (load_tokenizer_and_config E tr) s ++
       emitted (construct_model E cfg kw tr) s1)
      (logged (load_tokenizer_and_config E tr) s ++
       logged (construct_model E cfg kw tr) s1)
| ended_adapting tok cfg kw s1 m s2 x s3 :
    load_tokenizer_and_config E tr s = (Ok (tok, cfg, kw), s1) ->
    construct_model E cfg kw tr s1 = (Ok m, s2) ->
    patch_and_adapt E tok cfg m fa tr s2 = (Raise x, s3) ->
    run_of fa tr vh s (Raise x) s3
      (emitted (load_tokenizer_and_config E tr) s ++
       emitted (construct_model E cfg kw tr) s1 ++
       emitted (patch_and_adapt E tok cfg m fa tr) s2)
      (logged (load_tokenizer_and_config E tr) s ++
       logged (construct_model E cfg kw tr) s1 ++
       logged (patch_and_adapt E tok cfg m fa tr) s2)
| ended_composing tok cfg kw s1 m s2 m1 s3 x s4 :
    load_tokenizer_and_config E tr s = (Ok (tok, cfg, kw), s1) ->
    construct_model E cfg kw tr s1 = (Ok m, s2) ->
    patch_and_adapt E tok cfg m fa tr s2 = (Ok m1, s3) ->
    compose_valuehead E m1 vh s3 = (Raise x, s4) ->
    run_of fa tr vh s (Raise x) s4
      (emitted (load_tokenizer_and_config E tr) s ++
       emitted (construct_model E cfg kw tr) s1 ++
       emitted (patch_and_adapt E tok cfg m fa tr) s2 ++
       emitted (compose_valuehead E m1 vh) s3)
      (logged (load_tokenizer_and_config E tr) s ++
       logged (construct_model E cfg kw tr) s1 ++
       logged (patch_and_adapt E tok cfg m fa tr) s2 ++
       logged (compose_valuehead E m1 vh) s3)
| ended_finalizing tok cfg kw s1 m s2 m1 s3 m2 s4 x s5 :
    load_tokenizer_and_config E tr s = (Ok (tok, cfg, kw), s1) ->
    construct_model E cfg kw tr s1 = (Ok m, s2) ->
    patch_and_adapt E tok cfg m fa tr s2 = (Ok m1, s3) ->
    compose_valuehead E m1 vh s3 = (Ok m2, s4) ->
    finalize_mode E m2 tr s4 = (Raise x, s5) ->
    run_of fa tr vh s (Raise x) s5
      (emitted (load_tokenizer_and_config E tr) s ++
       emitted (construct_model E cfg kw tr) s1 ++
       emitted (patch_and_adapt E tok cfg m fa tr) s2 ++
       emitted (compose_valuehead E m1 vh) s3 ++
       emitted (finalize_mode E m2 tr) s4)
      (logged (load_tokenizer_and_config E tr) s ++
       logged (construct_model E cfg kw tr) s1 ++
       logged (patch_and_adapt E tok cfg m fa tr) s2 ++
       logged (compose_valuehead E m1 vh) s3 ++
       logged (finalize_mode E m2 tr) s4)
| ended_reporting tok cfg kw s1 m s2 m1 s3 m2 s4 m3 s5 x s6 :
    load_tokenizer_and_config E tr s = (Ok (tok, cfg, kw), s1) ->
    construct_model E cfg kw tr s1 = (Ok m, s2) ->
    patch_and_adapt E tok cfg m fa tr s2 = (Ok m1, s3) ->
    compose_valuehead E m1 vh s3 = (Ok m2, s4) ->
    finalize_mode E m2 tr s4 = (Ok m3, s5) ->
    report_parameters E m3 tr s5 = (Raise x, s6) ->
    run_of fa tr vh s (Raise x) s6
      (emitted (load_tokenizer_and_config E tr) s ++
       emitted (construct_model E cfg kw tr) s1 ++
       emitted (patch_and_adapt E tok cfg m fa tr) s2 ++
       emitted (compose_valuehead E m1 vh) s3 ++
       emitted (finalize_mode E m2 tr) s4 ++
       emitted (report_parameters E m3 tr) s5)
      (logged (load_tokenizer_and_config E tr) s ++
       logged (construct_model E cfg kw tr) s1 ++
       logged (patch_and_adapt E tok cfg m fa tr) s2 ++
       logged (compose_valuehead E m1 vh) s3 ++
       logged (finalize_mode E m2 tr) s4 ++
       logged (report_parameters E m3 tr) s5)
| returned_from tok cfg kw s1 m s2 m1 s3 m2 s4 m3 s5 s6 :
    load_tokenizer_and_config E tr s = (Ok (tok, cfg, kw), s1) ->
    construct_model E cfg kw tr s1 = (Ok m, s2) ->
    patch_and_adapt E tok cfg m fa tr s2 = (Ok m1, s3) ->
    compose_valuehead E m1 vh s3 = (Ok m2, s4) ->
    finalize_mode E m2 tr s4 = (Ok m3, s5) ->
    report_parameters E m3 tr s5 = (Ok tt, s6) ->
    run_of fa tr vh s (Ok (m3, tok)) s6
      (emitted (load_tokenizer_and_config E tr) s ++
       emitted (construct_model E cfg kw tr) s1 ++
       emitted (patch_and_adapt E tok cfg m fa tr) s2 ++
       emitted (compose_valuehead E m1 vh) s3 ++
       emitted (finalize_mode E m2 tr) s4 ++
       emitted (report_parameters E m3 tr) s5)
      (logged (load_tokenizer_and_config E tr) s ++
       logged (construct_model E cfg kw tr) s1 ++
       logged (patch_and_adapt E tok cfg m fa tr) s2 ++
       logged (compose_valuehead E m1 vh) s3 ++
       logged (finalize_mode E m2 tr) s4 ++
       logged (report_parameters E m3 tr) s5).

(** The place of a stage in the pipeline. *)
Definition rank (X : stage) : nat :=
  match X with
  | Resolve => 0
  | Construct => 1
  | Adapt => 2
  | ValueHead => 3
  | Finalize => 4
  | Report => 5
  end.

Definition stage_order ev1 ev2 : Prop :=
  (rank (stage_of (ev_call ev1)) <= rank (stage_of (ev_call ev2)))%nat.

(** Calls that build a model from the artifact. *)
Definition is_constructor ev : bool :=
  match ev_call ev with
  | CFastLlamaModel_from_pretrained _ _
  | CFastMistralModel_from_pretrained _ _
  | CAutoModelForCausalLM_from_pretrained _ _ _ _ _ _ => true
  | _ => false
  end.

(** [model.train()]; and the three calls that freeze a model. *)
Definition trains ev : bool :=
  match ev_call ev with Ctrain _ _ => true | _ => false end.

Definition freezes ev : bool :=
  match ev_call ev with
  | Crequires_grad_ _ _ _ | Cto _ _ _ | Ceval _ _ => true
  | _ => false
  end.

(** [evs] is in stage order and starts no earlier than place [n]. *)
Definition ordered_from (n : nat) evs : Prop :=
  StronglySorted stage_order evs /\
  Forall (fun ev => (n <= rank (stage_of (ev_call ev)))%nat) evs.

(** [rspec P m]: whatever the state, [m] only appends to the log, and the
    records it appends satisfy [P]. *)
Definition rspec {A} (P : log_record -> Prop) (m : M E A) : Prop :=
  forall s, exists recs,
    records (m s).2 = records s ++ recs /\ Forall P recs.


(** Objects that calls are handed and hand back.  [used] tells which
    object a call is given, [made] which one it returned; [latest made cur
    evs] is the object most recently returned in [evs] ([cur] if none), and
    [current used made cur evs] says that every call in [evs] that is given
    an object is given the one most recently returned before it. *)
Fixpoint latest {R} (made : event E -> option R) (cur : option R) evs
  : option R :=
  match evs with
  | [] => cur
  | ev :: rest =>
    latest made (match made ev with Some r => Some r | None => cur end) rest
  end.

Fixpoint current {R} (used made : event E -> option R) (cur : option R) evs
  : Prop :=
  match evs with
  | [] => True
  | ev :: rest =>
    (forall r, used ev = Some r -> cur = Some r) /\
    current used made
      (match made ev with Some r => Some r | None => cur end) rest
  end.

Definition model_used ev : option (Model E) :=
  match ev_call ev with
  | Cadd_model_tags _ m _ | Cpatch_model _ m _ _ _
  | Cregister_autoclass _ _ m _ | Cinit_adapter _ m _ _ _
  | CAutoModelForCausalLMWithValueHead_from_pretrained _ m
  | Cpatch_valuehead_model _ m | Cload_state_dict _ m _ _
  | Crequires_grad_ _ m _ | Cto _ m _ | Ceval _ m | Ctrain _ m
  | Ccount_parameters _ m => Some m
  | _ => None
  end.

Definition model_made ev : option (Model E) :=
  match ev_result ev with inr (RModel m) => Some m | _ => None end.

Definition tokenizer_used ev : option (Tokenizer E) :=
  match ev_call ev with
  | Cpatch_tokenizer _ t | Cpatch_config _ _ t _ _ _
  | Cpatch_model _ _ t _ _ | Cregister_autoclass _ _ _ t => Some t
  | _ => None
  end.

Definition tokenizer_made ev : option (Tokenizer E) :=
  match ev_result ev with inr (RTokenizer t) => Some t | _ => None end.

Definition config_used ev : option (Config E) :=
  match ev_call ev with
  | Cpatch_config _ c _ _ _ _
  | CAutoModelForCausalLM_from_pretrained _ _ c _ _ _
  | Cregister_autoclass _ c _ _ => Some c
  | _ => None
  end.

Definition config_made ev : option (Config E) :=
  match ev_result ev with inr (RConfig c) => Some c | _ => None end.

(** The value a call returned is of the kind the call returns. *)
Definition well_typed ev : Prop :=
  match ev_result ev with
  | inl _ => True
  | inr v =>
    match ev_call ev, v with
    | CAutoTokenizer_from_pretrained _ _ _ _ _ _, RTokenizer _
    | CAutoConfig_from_pretrained _ _ _, RConfig _
    | CFastLlamaModel_from_pretrained _ _, RModel _
    | CFastMistralModel_from_pretrained _ _, RModel _
    | CAutoModelForCausalLM_from_pretrained _ _ _ _ _ _, RModel _
    | Cinit_adapter _ _ _ _ _, RModel _
    | CAutoModelForCausalLMWithValueHead_from_pretrained _ _, RModel _
    | Cto _ _ _, RModel _
    | Cload_valuehead_params _ _ _, RParams _
    | Ccount_parameters _ _, RCounts _ _
    | Ctry_download_model_from_ms _ _, RNone
    | Cimport_unsloth _, RNone
    | Cpatch_tokenizer _ _, RNone
    | Cpatch_config _ _ _ _ _ _, RNone
    | Cadd_model_tags _ _ _, RNone
    | Cpatch_model _ _ _ _ _, RNone
    | Cregister_autoclass _ _ _ _, RNone
    | Cpatch_valuehead_model _ _, RNone
    | Cload_state_dict _ _ _ _, RNone
    | Crequires_grad_ _ _ _, RNone
    | Ceval _ _, RNone
    | Ctrain _ _, RNone => True
    | _, _ => False
    end
  end.

(** The [config_kwargs] dictionary of lines 37-42, built from [a]. *)
Definition base_kwargs a : gmap string (kwval (KwObj E)) :=
  <["trust_remote_code"%string := KBool true]>
    (<["cache_dir"%string := kw_optstr (cache_dir a)]>
       (<["revision"%string := KStr (model_revision a)]>
          (<["token"%string := kw_optstr (hf_hub_token a)]> ∅))).

(** The tokenizer and the configuration are loaded, and the configuration
    is patched, with what [a] says. *)
Definition resolves_with a ev : Prop :=
  match ev_call ev with
  | CAutoTokenizer_from_pretrained _ name use_fast split side kw =>
    name = model_name_or_path a /\ use_fast = use_fast_tokenizer a /\
    split = split_special_tokens a /\ side = "right"%string /\
    kw = base_kwargs a
  | CAutoConfig_from_pretrained _ name kw =>
    name = model_name_or_path a /\ kw = base_kwargs a
  | Cpatch_config _ _ _ a' kw _ => a' = a /\ kw = base_kwargs a
  | _ => True
  end.

(** The level each message is logged at. *)
Definition level_of (msg : message) : level :=
  match msg with
  | UnslothUnsupportedType _ | UnslothNoAdapters | TaggingUnavailable =>
    WARNING
  | LoadedValuehead _ | ParamCounts _ _ | InferenceOnly => INFO
  end.

Definition unsloth_message (msg : message) : bool :=
  match msg with
  | UnslothUnsupportedType _ | UnslothNoAdapters => true
  | _ => false
  end.

Definition valuehead_message (msg : message) : bool :=
  match msg with LoadedValuehead _ => true | _ => false end.

(** The place of a call in the source text of the loader. *)
Definition position (c : call E) : nat :=
  match c with
  | Ctry_download_model_from_ms _ _ => 0
  | CAutoTokenizer_from_pretrained _ _ _ _ _ _ => 1
  | Cpatch_tokenizer _ _ => 2
  | CAutoConfig_from_pretrained _ _ _ => 3
  | Cpatch_config _ _ _ _ _ _ => 4
  | Cimport_unsloth _ => 5
  | CFastLlamaModel_from_pretrained _ _ => 6
  | CFastMistralModel_from_pretrained _ _ => 7
  | CAutoModelForCausalLM_from_pretrained _ _ _ _ _ _ => 8
  | Cadd_model_tags _ _ _ => 9
  | Cpatch_model _ _ _ _ _ => 10
  | Cregister_autoclass _ _ _ _ => 11
  | Cinit_adapter _ _ _ _ _ => 12
  | CAutoModelForCausalLMWithValueHead_from_pretrained _ _ => 13
  | Cpatch_valuehead_model _ _ => 14
  | Cload_valuehead_params _ _ _ => 15
  | Cload_state_dict _ _ _ _ => 16
  | Crequires_grad_ _ _ _ => 17
  | Cto _ _ _ => 18
  | Ceval _ _ => 19
  | Ctrain _ _ => 20
  | Ccount_parameters _ _ => 21
  end.

Definition earlier ev1 ev2 : Prop :=
  (position (ev_call ev1) < position (ev_call ev2))%nat.

(** [evs] goes strictly down the source text, within places [lo] to [hi]. *)
Definition descends (lo hi : nat) evs : Prop :=
  StronglySorted earlier evs /\
  Forall (fun ev => (lo <= position (ev_call ev) < hi)%nat) evs.

(** The [model_args] a call was handed, as they were at the call. *)
Definition margs_handed ev : option (ModelArguments (Dtype E) (Rest E)) :=
  match ev_call ev with
  | Ctry_download_model_from_ms _ a' | Cpatch_config _ _ _ a' _ _
  | Cpatch_model _ _ _ a' _ | Cinit_adapter _ _ a' _ _
  | Cload_valuehead_params _ _ a' => Some a'
  | _ => None
  end.

(** If [ev] was handed [model_args], they were those of state [s]. *)
Definition handed_from s ev : Prop :=
  forall a, margs_handed ev = Some a -> a = model_args s.

(** A model constructor is given what [a] says: the artifact, the compute
    dtype and, on the accelerated path, the rest of lines 60-64. *)
Definition constructs_from (a : ModelArguments (Dtype E) (Rest E)) ev : Prop :=
  match ev_call ev with
  | CFastLlamaModel_from_pretrained _ uk
  | CFastMistralModel_from_pretrained _ uk =>
    uk_model_name _ _ _ uk = model_name_or_path a /\
    uk_max_seq_length _ _ _ uk = model_max_length a /\
    uk_dtype _ _ _ uk = compute_dtype a /\
    uk_load_in_4bit _ _ _ uk = bool_decide (quantization_bit a = Some 4) /\
    uk_token _ _ _ uk = hf_hub_token a
  | CAutoModelForCausalLM_from_pretrained _ name _ dtype _ _ =>
    name = model_name_or_path a /\ dtype = compute_dtype a
  | _ => True
  end.

(** How many of the calls [evs] satisfy [Q]. *)
Definition count_calls (Q : event E -> bool) evs : nat :=
  length (List.filter Q evs).

End Observations.

(** Further processes of the concrete collaborators. *)
Module Cases.
Import Toy.

(** A llama process whose caller set the opt-in flag and gave an adapter. *)
Definition start_L_adapters : state L :=
  start llama (args "m" true (Some ["ckpt"%string])).


Definition patched_llama : event L :=
  Event (E := L)
    (Cpatch_model L "FastLlamaModel"%string "tokenizer of m"%string
       (args "m" true None) true)
    (inr (RNone (E := L))).

Definition params_looked_up : event L :=
  Event (E := L) (Cload_valuehead_params L "m"%string (args "m" true None))
    (inr (RParams (E := L) None)).

End Cases.

(** ** Running the loader symbolically *)

Ltac unfold_loader :=
  unfold load_tokenizer_and_config, construct_model, accelerated_construction,
    standard_construction, patch_and_adapt, compose_valuehead, finalize_mode,
    report_parameters, vhead_source, call_patch_config, bind, ret, raise,
    foreign, foreign_ma, probe, emit, warning_once, get_model_args,
    set_model_args, deliver, outcome, unit_ret, counts_ret.

(** Case analysis on the innermost scrutinee: the next call, probe or test
    the code reaches. *)
Ltac step :=
  match goal with
  | |- context [match ?x with _ => _ end] =>
      lazymatch x with
      | context [match _ with _ => _ end] => fail
      | _ => destruct x eqn:?
      end
  end.

Ltac exec := unfold_loader; cbn; repeat (step; cbn).

(** ** Traces *)

Section Traces.
Context {E : Collaborators}.
Implicit Types (s : state E) (evs : list (event E)) (ev : event E).

Lemma propagates_app evs1 evs2 x :
  propagates evs1 None -> propagates evs2 x -> propagates (evs1 ++ evs2) x.
Proof.
  induction evs1 as [|ev evs1 IH]; cbn; [done|].
  destruct (ev_result ev); [|auto]. intros [_ ?]; discriminate.
Qed.


Lemma tspec_weaken {A} (P Q : event E -> Prop) (m : M E A) :
  (forall ev, P ev -> Q ev) -> tspec P m -> tspec Q m.
Proof.
  intros HPQ Hm s. destruct (Hm s) as (evs & ? & HP & ?).
  exists evs. split_and!; [done| |done]. eapply Forall_impl; eauto.
Qed.

Lemma tspec_bind {A B} P (m : M E A) (f : A -> M E B) :
  tspec P m -> (forall a, tspec P (f a)) -> tspec P (bind m f).
Proof.
  intros Hm Hf s. unfold bind.
  destruct (Hm s) as (evs1 & Ht1 & HP1 & Hp1).
  destruct (m s) as [[a|e] s1]; cbn in *.
  - destruct (Hf a s1) as (evs2 & Ht2 & HP2 & Hp2).
    exists (evs1 ++ evs2). split_and!.
    + by rewrite Ht2, Ht1, app_assoc.
    + by apply Forall_app.
    + by apply propagates_app.
  - by exists evs1.
Qed.

Lemma tspec_silent {A} P (m : M E A) :
  (forall s, trace (m s).2 = trace s /\
             match (m s).1 with Raise (Propagated _) => False | _ => True end) ->
  tspec P m.
Proof.
  intros H s. destruct (H s) as [Ht Hr]. exists []. split_and!.
  - by rewrite app_nil_r.
  - constructor.
  - cbn. destruct (m s).1 as [|[]]; cbn in *; done.
Qed.

Lemma tspec_foreign {A} (P : event E -> Prop) c inj
    (f : World E -> (Exn E + A) * World E) :
  (forall o, P (Event c o)) -> tspec P (foreign E c inj f).
Proof.
  intros HP s. unfold foreign. destruct (f (world s)) as [[e|a] w]; cbn.
  - exists [Event c (inl e)]. split_and!; [done|by constructor|done].
  - exists [Event c (inr (inj a))]. split_and!; [done|by constructor|done].
Qed.

Lemma tspec_foreign_ma {A} (P : event E -> Prop) c inj
    (f : ModelArguments (Dtype E) (Rest E) -> World E ->
         (Exn E + A) * ModelArguments (Dtype E) (Rest E) * World E) :
  (forall a o, P (Event (c a) o)) -> tspec P (foreign_ma E c inj f).
Proof.
  intros HP s. unfold foreign_ma.
  destruct (f (model_args s) (world s)) as [[[e|a] ma] w]; cbn.
  - exists [Event (c (model_args s)) (inl e)].
    split_and!; [done|by constructor|done].
  - exists [Event (c (model_args s)) (inr (inj a))].
    split_and!; [done|by constructor|done].
Qed.

Lemma tspec_patch_config (P : event E -> Prop) cfg tok kw tr :
  (forall a o, P (Event (Cpatch_config E cfg tok a kw tr) o)) ->
  tspec P (call_patch_config E cfg tok kw tr).
Proof.
  intros HP s. unfold call_patch_config.
  destruct (patch_config E cfg tok (model_args s) kw tr (world s))
    as [[[[e|a] ma] kw'] w]; cbn.
  - exists [Event (Cpatch_config E cfg tok (model_args s) kw tr) (inl e)].
    split_and!; [done|by constructor|done].
  - exists [Event (Cpatch_config E cfg tok (model_args s) kw tr)
              (inr (unit_ret E a))].
    split_and!; [done|by constructor|done].
Qed.







End Traces.

(** Proves [tspec P m] by following the structure of [m]. *)
Ltac tspec_tac :=
  repeat first
    [ apply tspec_bind; [|intros ?]
    | apply tspec_foreign; intros; reflexivity
    | apply tspec_foreign_ma; intros; reflexivity
    | apply tspec_patch_config; intros; reflexivity
    | apply tspec_silent; intros ?;
      unfold ret, raise, probe, emit, warning_once, get_model_args,
        set_model_args, vhead_source;
      cbn; repeat case_match; cbn; done
    | match goal with
      | |- tspec _ (if ?b then _ else _) => destruct b
      | |- tspec _ (match ?x with _ => _ end) => destruct x
      | |- tspec _ (let '(_, _) := ?x in _) => destruct x
      end ].


Section StageTraces.
Context {E : Collaborators}.

Lemma load_tokenizer_and_config_tspec tr :
  tspec (in_stage Resolve) (load_tokenizer_and_config E tr).
Proof. unfold load_tokenizer_and_config. tspec_tac. Qed.

Lemma construct_model_tspec cfg kw tr :
  tspec (in_stage Construct) (construct_model E cfg kw tr).
Proof.
  unfold construct_model, accelerated_construction, standard_construction.
  tspec_tac.
Qed.

Lemma patch_and_adapt_tspec tok cfg m fa tr :
  tspec (in_stage Adapt) (patch_and_adapt E tok cfg m fa tr).
Proof. unfold patch_and_adapt. tspec_tac. Qed.

Lemma compose_valuehead_tspec m vh :
  tspec (in_stage ValueHead) (compose_valuehead E m vh).
Proof. unfold compose_valuehead. tspec_tac. Qed.

Lemma finalize_mode_tspec m tr :
  tspec (in_stage Finalize) (finalize_mode E m tr).
Proof. unfold finalize_mode. tspec_tac. Qed.

Lemma report_parameters_tspec m tr :
  tspec (in_stage Report) (report_parameters E m tr).
Proof. unfold report_parameters. tspec_tac. Qed.








End StageTraces.

(** ** The whole run, stage by stage *)

Section WholeRun.
Context {E : Collaborators}.
Implicit Types (s : state E) (evs : list (event E)) (ev : event E).


Lemma patch_and_adapt_adapting tok cfg m fa tr s :
  exists evs,
    trace (patch_and_adapt E tok cfg m fa tr s).2 = trace s ++ evs /\
    adapting tok cfg m fa tr (model_args s) (world s) evs.
Proof.
  pose proof (adapting_patch_raised tok cfg m fa tr (model_args s) (world s))
    as R1.
  pose proof (adapting_register_raised tok cfg m fa tr (model_args s)
                (world s)) as R2.
  pose proof (adapting_init tok cfg m fa tr (model_args s) (world s)) as R3.
  revert R1 R2 R3.
  unfold patch_and_adapt, bind, foreign_ma, foreign, deliver, outcome,
    unit_ret.
  cbn.
  destruct (patch_model E m tok (model_args s) tr (world s))
    as [[[e|[]] a1] w1]; cbn.
  { intros R1 _ _. eexists; split; [reflexivity|]. by apply R1. }
  destruct (register_autoclass E cfg m tok w1) as [[e|[]] w2]; cbn.
  { intros _ R2 _. rewrite <- app_assoc. eexists; split; [reflexivity|].
    by apply R2. }
  destruct (init_adapter E m a1 fa tr w2) as [[[e|m'] a2] w3]; cbn;
    intros _ _ R3; rewrite <- !app_assoc; (eexists; split; [reflexivity|]);
    by apply R3.
Qed.

Lemma finish_tspec (tok : Tokenizer E) m tr vh :
  tspec after_adapt (finish tok m tr vh).
Proof.
  unfold finish.
  apply tspec_bind; [|intros ?].
  { eapply tspec_weaken, compose_valuehead_tspec. unfold after_adapt. eauto. }
  apply tspec_bind; [|intros ?].
  { eapply tspec_weaken, finalize_mode_tspec. unfold after_adapt. eauto. }
  apply tspec_bind; [|intros ?].
  { eapply tspec_weaken, report_parameters_tspec. unfold after_adapt. eauto. }
  tspec_tac.
Qed.

Lemma load_model_and_tokenizer_tspec fa tr vh :
  tspec (fun _ => True) (load_model_and_tokenizer E fa tr vh).
Proof.
  unfold load_model_and_tokenizer.
  apply tspec_bind; [|intros [[tok cfg] kw]].
  { eapply tspec_weaken, load_tokenizer_and_config_tspec. done. }
  apply tspec_bind; [|intros ?].
  { eapply tspec_weaken, construct_model_tspec. done. }
  apply tspec_bind; [|intros ?].
  { eapply tspec_weaken, patch_and_adapt_tspec. done. }
  eapply tspec_weaken, (finish_tspec tok _ tr vh). done.
Qed.


End WholeRun.

(** ** Failure propagation *)

Section Propagation.
Context {E : Collaborators}.
Implicit Types (s : state E) (evs : list (event E)) (ev : event E).

Lemma propagates_returned evs : propagates evs None -> Forall returned evs.
Proof.
  induction evs as [|ev evs IH]; cbn; [constructor|].
  destruct (ev_result ev) as [e|v] eqn:Hev.
  - intros [_ ?]; discriminate.
  - intros Hp. constructor; [by exists v|auto].
Qed.


(** A run that returns made only calls that returned. *)
Lemma returning_run_calls_returned fa tr vh s evs r :
  trace (load_model_and_tokenizer E fa tr vh s).2 = trace s ++ evs ->
  (load_model_and_tokenizer E fa tr vh s).1 = Ok r ->
  Forall returned evs.
Proof.
  intros Ht Hr.
  destruct (load_model_and_tokenizer_tspec fa tr vh s) as (evs' & Ht' & _ & Hp).
  rewrite Ht in Ht'. apply app_inv_head in Ht'. subst evs'.
  rewrite Hr in Hp. by apply propagates_returned.
Qed.

End Propagation.

(** ** The model reaching the adapter initializer *)

Section PatchedBeforeAdapter.
Context {E : Collaborators}.
Implicit Types (s : state E) (evs : list (event E)) (ev : event E).






(** A run that returns did reach [init_adapter]. *)
Lemma returning_run_adapted fa tr vh s r :
  (load_model_and_tokenizer E fa tr vh s).1 = Ok r ->
  exists pre post m a o,
    trace (load_model_and_tokenizer E fa tr vh s).2
      = trace s ++ pre ++ Event (Cinit_adapter E m a fa tr) o :: post.
Proof.
  unfold load_model_and_tokenizer, bind.
  destruct (load_tokenizer_and_config_tspec tr s) as (e1 & Ht1 & _).
  destruct (load_tokenizer_and_config E tr s) as [[[[tok cfg] kw]|x] s1];
    cbn in *; [|done].
  destruct (construct_model_tspec cfg kw tr s1) as (e2 & Ht2 & _).
  destruct (construct_model E cfg kw tr s1) as [[m|x] s2]; cbn in *; [|done].
  destruct (patch_and_adapt_adapting tok cfg m fa tr s2) as (e3 & Ht3 & Ha).
  pose proof (patch_and_adapt_tspec tok cfg m fa tr s2) as (e3' & Ht3' & _ & Hp).
  assert (e3' = e3) as ->
    by (rewrite Ht3 in Ht3'; by apply app_inv_head in Ht3').
  pose proof (finish_tspec tok) as Hfin. unfold finish, bind in Hfin.
  destruct (patch_and_adapt E tok cfg m fa tr s2) as [[m'|x] s3]; cbn in *;
    [|done].
  destruct (Hfin m' tr vh s3) as (e4 & Ht4 & _). intros _.
  destruct Ha as [e ?|e ? ?|? ?]; cbn in Hp.
  - by destruct Hp.
  - by destruct Hp.
  - eexists (e1 ++ e2 ++ [_; _]), e4, m, _, _.
    rewrite Ht4, Ht3, Ht2, Ht1, <- !app_assoc. done.
Qed.

End PatchedBeforeAdapter.

(** ** The parameter report *)

Section Report.
Context {E : Collaborators}.
Implicit Types (s : state E) (evs : list (event E)) (ev : event E).

(** What the report stage does, by what [count_parameters] answers. *)
Lemma report_parameters_run m tr s :
  report_parameters E m tr s =
  match count_parameters E m (world s) with
  | (inl e, w) =>
    (Raise (Propagated e),
     State (model_args s) w (records s) (warned_once s)
       (trace s ++ [Event (Ccount_parameters E m) (inl e)]))
  | (inr (t, a), w) =>
    if bool_decide (a = 0) then
      (Raise ZeroDivisionError,
       State (model_args s) w (records s) (warned_once s)
         (trace s ++ [Event (Ccount_parameters E m) (inr (RCounts t a))]))
    else
      (Ok tt,
       State (model_args s) w
         (records s ++
          LogRecord INFO (ParamCounts t a) ::
          (if tr then [] else [LogRecord INFO InferenceOnly]))
         (warned_once s)
         (trace s ++ [Event (Ccount_parameters E m) (inr (RCounts t a))]))
  end.
Proof.
  exec; by rewrite <- ?app_assoc.
Qed.

(** A run either ends before the report stage, with an exception, or ends
    with the report stage, on the model and tokenizer it would return. *)
Lemma load_model_and_tokenizer_report fa tr vh s :
  (exists x evs,
     (load_model_and_tokenizer E fa tr vh s).1 = Raise x /\
     trace (load_model_and_tokenizer E fa tr vh s).2 = trace s ++ evs /\
     Forall before_report evs) \/
  (exists m tok s5 evs,
     trace s5 = trace s ++ evs /\ Forall before_report evs /\
     (load_model_and_tokenizer E fa tr vh s).2
       = (report_parameters E m tr s5).2 /\
     (load_model_and_tokenizer E fa tr vh s).1
       = match (report_parameters E m tr s5).1 with
         | Ok _ => Ok (m, tok)
         | Raise x => Raise x
         end).
Proof.
  unfold load_model_and_tokenizer, bind.
  destruct (load_tokenizer_and_config_tspec tr s) as (e1 & Ht1 & HP1 & _).
  assert (Forall before_report e1) as N1
    by (eapply Forall_impl; [exact HP1|]; unfold in_stage, before_report;
        intros ? ->; done).
  destruct (load_tokenizer_and_config E tr s) as [[[[tok cfg] kw]|x] s1];
    cbn in *; [|left; eauto].
  destruct (construct_model_tspec cfg kw tr s1) as (e2 & Ht2 & HP2 & _).
  assert (Forall before_report e2) as N2
    by (eapply Forall_impl; [exact HP2|]; unfold in_stage, before_report;
        intros ? ->; done).
  destruct (construct_model E cfg kw tr s1) as [[m|x] s2]; cbn in *.
  2:{ left. exists x, (e1 ++ e2). rewrite Ht2, Ht1, <- app_assoc.
      split_and!; [done..|]. by apply Forall_app. }
  destruct (patch_and_adapt_tspec tok cfg m fa tr s2) as (e3 & Ht3 & HP3 & _).
  assert (Forall before_report e3) as N3
    by (eapply Forall_impl; [exact HP3|]; unfold in_stage, before_report;
        intros ? ->; done).
  destruct (patch_and_adapt E tok cfg m fa tr s2) as [[m1|x] s3]; cbn in *.
  2:{ left. exists x, (e1 ++ e2 ++ e3). rewrite Ht3, Ht2, Ht1, <- !app_assoc.
      split_and!; [done..|]. by rewrite !Forall_app. }
  destruct (compose_valuehead_tspec m1 vh s3) as (e4 & Ht4 & HP4 & _).
  assert (Forall before_report e4) as N4
    by (eapply Forall_impl; [exact HP4|]; unfold in_stage, before_report;
        intros ? ->; done).
  destruct (compose_valuehead E m1 vh s3) as [[m2|x] s4]; cbn in *.
  2:{ left. exists x, (e1 ++ e2 ++ e3 ++ e4).
      rewrite Ht4, Ht3, Ht2, Ht1, <- !app_assoc.
      split_and!; [done..|]. by rewrite !Forall_app. }
  destruct (finalize_mode_tspec m2 tr s4) as (e5 & Ht5 & HP5 & _).
  assert (Forall before_report e5) as N5
    by (eapply Forall_impl; [exact HP5|]; unfold in_stage, before_report;
        intros ? ->; done).
  destruct (finalize_mode E m2 tr s4) as [[m3|x] s5]; cbn in *.
  2:{ left. exists x, (e1 ++ e2 ++ e3 ++ e4 ++ e5).
      rewrite Ht5, Ht4, Ht3, Ht2, Ht1, <- !app_assoc.
      split_and!; [done..|]. by rewrite !Forall_app. }
  right. exists m3, tok, s5, (e1 ++ e2 ++ e3 ++ e4 ++ e5).
  rewrite Ht5, Ht4, Ht3, Ht2, Ht1, <- !app_assoc.
  split_and!; [done|by rewrite !Forall_app|..];
    by destruct (report_parameters E m3 tr s5) as [[[]|x] s6].
Qed.

(** C10. The report divides by the total parameter count unguarded: in any
    run in which [count_parameters] answers a total of zero, whatever the
    trainable count, the run ends with a division error instead of returning
    the model; counting was the last thing it did. *)
Theorem zero_total_raises_division_error
    (fa : FinetuningArguments E) (is_trainable add_valuehead : bool) s evs
    (m : Model E) (t : Z) :
  trace (load_model_and_tokenizer E fa is_trainable add_valuehead s).2
    = trace s ++ evs ->
  Event (Ccount_parameters E m) (inr (RCounts t 0)) ∈ evs ->
  (load_model_and_tokenizer E fa is_trainable add_valuehead s).1
    = Raise ZeroDivisionError /\
  exists pre,
    evs = pre ++ [Event (Ccount_parameters E m) (inr (RCounts t 0))].
Proof.
  intros Ht Hin.
  destruct (load_model_and_tokenizer_report fa is_trainable add_valuehead s)
    as [(x & evs' & _ & Ht' & Hb)|(m' & tok & s5 & evs' & Ht5 & Hb & Hs & Hr)].
  { rewrite Ht in Ht'. apply app_inv_head in Ht'. subst evs'.
    rewrite Forall_forall in Hb. by destruct (Hb _ Hin). }
  rewrite Hr. rewrite Hs in Ht. clear Hs Hr.
  rewrite report_parameters_run in *.
  destruct (count_parameters E m' (world s5)) as [[e|[t' a']] w]; cbn in *.
  - rewrite Ht5, <- app_assoc in Ht. apply app_inv_head in Ht. subst evs.
    apply elem_of_app in Hin as [Hin|Hin].
    + rewrite Forall_forall in Hb. by destruct (Hb _ Hin).
    + by apply list_elem_of_singleton in Hin.
  - assert (evs = evs' ++
              [Event (Ccount_parameters E m') (inr (RCounts t' a'))]) as ->.
    { case_bool_decide; cbn in Ht; rewrite Ht5, <- app_assoc in Ht;
        by apply app_inv_head in Ht. }
    apply elem_of_app in Hin as [Hin|Hin].
    { rewrite Forall_forall in Hb. by destruct (Hb _ Hin). }
    apply list_elem_of_singleton in Hin. injection Hin as <- <- <-.
    rewrite bool_decide_eq_true_2 by done. split; [done|]. by exists evs'.
Qed.

(** C7, as the code has it.  Every run that returns has counted the
    parameters of the model it returns, found a total that is not zero, and
    closed its log with an [INFO] record of the two counts, followed, when
    the model is not trainable, by the [INFO] note on inference.  Nothing
    else is logged for the counts: a trainable count of zero is reported
    the same way in either mode, with no warning. *)
Theorem returning_run_reports_counts
    (fa : FinetuningArguments E) (is_trainable add_valuehead : bool) s
    (model : Model E) (tokenizer : Tokenizer E) :
  (load_model_and_tokenizer E fa is_trainable add_valuehead s).1
    = Ok (model, tokenizer) ->
  exists earlier pre t a,
    a <> 0 /\
    trace (load_model_and_tokenizer E fa is_trainable add_valuehead s).2
      = pre ++ [Event (Ccount_parameters E model) (inr (RCounts t a))] /\
    records (load_model_and_tokenizer E fa is_trainable add_valuehead s).2
      = earlier ++
        LogRecord INFO (ParamCounts t a) ::
        (if is_trainable then [] else [LogRecord INFO InferenceOnly]).
Proof.
  intros Hr.
  destruct (load_model_and_tokenizer_report fa is_trainable add_valuehead s)
    as [(x & evs' & Hx & _)|(m' & tok & s5 & evs' & Ht5 & Hb & Hs & Hr')].
  { congruence. }
  rewrite Hs. rewrite Hr' in Hr. clear Hs Hr'.
  rewrite report_parameters_run in *.
  destruct (count_parameters E m' (world s5)) as [[e|[t a]] w]; cbn in *;
    [done|].
  case_bool_decide; cbn in *; [done|]. injection Hr as -> ->.
  by exists (records s5), (trace s5), t, a.
Qed.

End Report.

(** The run that contradicts C7 as it was stated: a trainable run on a
    model none of whose parameters is trainable returns, and all it logs is
    the [INFO] record of the counts; there is no warning. *)
Lemma zero_trainable_not_warned :
  (Toy.load Toy.nothing_trainable (Toy.args "m" false None) true false).1
    = Ok ("AutoModelForCausalLM"%string, "tokenizer of m"%string) /\
  records (Toy.load Toy.nothing_trainable (Toy.args "m" false None)
             true false).2
    = [LogRecord INFO (ParamCounts 0 10)].
Proof. vm_compute. done. Qed.

(** ** The mode finalizer *)

Section Finalizer.
Context {E : Collaborators}.
Implicit Types (s : state E).

(** C6.  With [is_trainable] false the finalizer calls
    [requires_grad_(False)] on the model, then -- unless the model has a
    quantization method, in which case it is left as it is -- casts it to
    [model_args.compute_dtype] and goes on with the handle the cast returns,
    then calls [eval()]; with [is_trainable] true it calls [train()] and
    nothing else. *)
Theorem mode_finalizer (model : Model E) s :
  (forall w,
     model_train E model (world s) = (inr tt, w) ->
     finalize_mode E model true s =
     (Ok model,
      State (model_args s) w (records s) (warned_once s)
        (trace s ++ [Event (Ctrain E model) (inr RNone)]))) /\
  (forall w1 w2,
     model_requires_grad_ E model false (world s) = (inr tt, w1) ->
     getattr_quantization_method E model w1 = true ->
     model_eval E model w1 = (inr tt, w2) ->
     finalize_mode E model false s =
     (Ok model,
      State (model_args s) w2 (records s) (warned_once s)
        (trace s ++
         [Event (Crequires_grad_ E model false) (inr RNone);
          Event (Ceval E model) (inr RNone)]))) /\
  (forall w1 w2 w3 cast,
     model_requires_grad_ E model false (world s) = (inr tt, w1) ->
     getattr_quantization_method E model w1 = false ->
     model_to E model (compute_dtype (model_args s)) w1 = (inr cast, w2) ->
     model_eval E cast w2 = (inr tt, w3) ->
     finalize_mode E model false s =
     (Ok cast,
      State (model_args s) w3 (records s) (warned_once s)
        (trace s ++
         [Event (Crequires_grad_ E model false) (inr RNone);
          Event (Cto E model (compute_dtype (model_args s)))
            (inr (RModel cast));
          Event (Ceval E cast) (inr RNone)]))).
Proof.
  split_and!.
  - intros w Htrain. unfold_loader. cbn. by rewrite Htrain.
  - intros w1 w2 Hgrad Hq Heval. unfold_loader. cbn.
    rewrite Hgrad. cbn. rewrite Hq. cbn. rewrite Heval. cbn.
    by rewrite <- app_assoc.
  - intros w1 w2 w3 cast Hgrad Hq Hto Heval. unfold_loader. cbn.
    rewrite Hgrad. cbn. rewrite Hq. cbn. rewrite Hto. cbn. rewrite Heval. cbn.
    by rewrite <- !app_assoc.
Qed.

(** A quantized model is never cast, also when a later call raises. *)
Lemma quantized_model_not_cast (model : Model E) tr s w1 evs :
  model_requires_grad_ E model false (world s) = (inr tt, w1) ->
  getattr_quantization_method E model w1 = true ->
  trace (finalize_mode E model tr s).2 = trace s ++ evs ->
  forall m d o, Event (Cto E m d) o ∉ evs.
Proof.
  intros Hgrad Hq Ht m d o Hin. revert Ht. unfold_loader. destruct tr; cbn.
  - destruct (model_train E model (world s)) as [[e|[]] w]; cbn;
      intros Ht; apply app_inv_head in Ht; subst evs;
      by apply list_elem_of_singleton in Hin.
  - rewrite Hgrad. cbn. rewrite Hq. cbn.
    destruct (model_eval E model w1) as [[e|[]] w]; cbn;
      rewrite <- app_assoc; intros Ht; apply app_inv_head in Ht; subst evs;
      repeat (apply elem_of_cons in Hin as [Hin|Hin]; [done|]);
      by apply elem_of_nil in Hin.
Qed.

End Finalizer.

(** ** The value-head composer *)

Section ValueHead.
Context {E : Collaborators}.
Implicit Types (s : state E).

Lemma vhead_source_restoration_source a path :
  vhead_source E a = Ok path <-> restoration_source a path.
Proof.
  unfold vhead_source, restoration_source.
  destruct (adapter_name_or_path a) as [paths|].
  - destruct (last paths); split; congruence.
  - split; congruence.
Qed.

(** C8.  When a value head is requested: (1) whenever
    [load_valuehead_params] is called, the path it is given is the last
    entry of [model_args.adapter_name_or_path] if that is a list, and
    [model_args.model_name_or_path] if it is [None]; (2) if it finds no
    weights ([None]) the stage returns the wrapped model, with its fresh
    head, without raising, calling [load_state_dict] or logging; (3) if it
    finds weights they are loaded non-strictly and the log gains the [INFO]
    record "Loaded valuehead from checkpoint" with the path -- so the log
    tells the two cases apart. *)
Theorem value_head_restoration (model : Model E) s :
  (forall evs path a o,
     trace (compose_valuehead E model true s).2 = trace s ++ evs ->
     Event (Cload_valuehead_params E path a) o ∈ evs ->
     restoration_source a path) /\
  (forall wrapped w1 w2 w3 path a',
     AutoModelForCausalLMWithValueHead_from_pretrained E model (world s)
       = (inr wrapped, w1) ->
     patch_valuehead_model E wrapped w1 = (inr tt, w2) ->
     restoration_source (model_args s) path ->
     load_valuehead_params E path (model_args s) w2 = (inr None, a', w3) ->
     compose_valuehead E model true s =
     (Ok wrapped,
      State a' w3 (records s) (warned_once s)
        (trace s ++
         [Event (CAutoModelForCausalLMWithValueHead_from_pretrained E model)
            (inr (RModel wrapped));
          Event (Cpatch_valuehead_model E wrapped) (inr RNone);
          Event (Cload_valuehead_params E path (model_args s))
            (inr (RParams None))]))) /\
  (forall wrapped w1 w2 w3 w4 path a' params,
     AutoModelForCausalLMWithValueHead_from_pretrained E model (world s)
       = (inr wrapped, w1) ->
     patch_valuehead_model E wrapped w1 = (inr tt, w2) ->
     restoration_source (model_args s) path ->
     load_valuehead_params E path (model_args s) w2
       = (inr (Some params), a', w3) ->
     model_load_state_dict E wrapped params false w3 = (inr tt, w4) ->
     compose_valuehead E model true s =
     (Ok wrapped,
      State a' w4 (records s ++ [LogRecord INFO (LoadedValuehead path)])
        (warned_once s)
        (trace s ++
         [Event (CAutoModelForCausalLMWithValueHead_from_pretrained E model)
            (inr (RModel wrapped));
          Event (Cpatch_valuehead_model E wrapped) (inr RNone);
          Event (Cload_valuehead_params E path (model_args s))
            (inr (RParams (Some params)));
          Event (Cload_state_dict E wrapped params false) (inr RNone)]))).
Proof.
  split_and!.
  - intros evs path a o. exec;
      rewrite <- ?app_assoc; intros Ht; apply app_inv_head in Ht; subst evs;
      intros Hin;
      repeat (apply elem_of_cons in Hin as [Hin|Hin];
              [try discriminate; try (injection Hin as -> ->)|]);
      try (by apply elem_of_nil in Hin);
      unfold restoration_source;
      repeat match goal with H : _ = _ |- _ => rewrite H end; done.
  - intros wrapped w1 w2 w3 path a' Hw Hp Hsrc Hl.
    apply vhead_source_restoration_source in Hsrc.
    unfold compose_valuehead, bind, foreign, foreign_ma, deliver, outcome,
      get_model_args, ret, unit_ret. cbn.
    rewrite Hw. cbn. rewrite Hp. cbn. rewrite Hsrc. cbn. rewrite Hl. cbn.
    by rewrite <- !app_assoc.
  - intros wrapped w1 w2 w3 w4 path a' params Hw Hp Hsrc Hl Hd.
    apply vhead_source_restoration_source in Hsrc.
    unfold compose_valuehead, bind, foreign, foreign_ma, deliver, outcome,
      get_model_args, ret, emit, unit_ret. cbn.
    rewrite Hw. cbn. rewrite Hp. cbn. rewrite Hsrc. cbn. rewrite Hl. cbn.
    rewrite Hd. cbn. by rewrite <- !app_assoc.
Qed.

(** A path list that is present but empty has no last entry: indexing it
    raises, after the model has been wrapped. *)
Lemma empty_adapter_list_raises (model : Model E) s wrapped w1 w2 :
  adapter_name_or_path (model_args s) = Some [] ->
  AutoModelForCausalLMWithValueHead_from_pretrained E model (world s)
    = (inr wrapped, w1) ->
  patch_valuehead_model E wrapped w1 = (inr tt, w2) ->
  (compose_valuehead E model true s).1 = Raise IndexError.
Proof.
  intros Ha Hw Hp.
  unfold compose_valuehead, bind, foreign, deliver, get_model_args,
    vhead_source.
  cbn. rewrite Hw. cbn. rewrite Hp. cbn. by rewrite Ha.
Qed.

End ValueHead.

(** ** Provenance tagging *)

Section Tagging.
Context {E : Collaborators}.
Implicit Types (s : state E).

(** C4, as the code has it.  Tagging belongs to the standard construction
    path only.  (1) A model built on the accelerated path passes lines 81-99
    untouched: no tag, no warning.  (2) A model the standard constructor
    returned is tagged "llama-factory" when it has [add_model_tags].  (3)
    When it has not, the stage still returns the model, and the warning is
    logged through [warning_once]: a [WARNING] record the first time in the
    process, nothing once it has been given. *)
Theorem provenance_tag_on_standard_path (cfg : Config E)
    (kw : gmap string (kwval (KwObj E))) s :
  (forall m, standard_construction E cfg kw (Some m) s = (Ok m, s)) /\
  (forall m w1 w2,
     AutoModelForCausalLM_from_pretrained E
       (model_name_or_path (model_args s)) cfg (compute_dtype (model_args s))
       (negb (is_deepspeed_zero3_enabled E (world s))) kw (world s)
       = (inr m, w1) ->
     hasattr_add_model_tags E m w1 = true ->
     model_add_model_tags E m ["llama-factory"%string] w1 = (inr tt, w2) ->
     standard_construction E cfg kw None s =
     (Ok m,
      State (model_args s) w2 (records s) (warned_once s)
        (trace s ++
         [Event (standard_call cfg kw s) (inr (RModel m));
          Event (Cadd_model_tags E m ["llama-factory"%string])
            (inr RNone)]))) /\
  (forall m w1,
     AutoModelForCausalLM_from_pretrained E
       (model_name_or_path (model_args s)) cfg (compute_dtype (model_args s))
       (negb (is_deepspeed_zero3_enabled E (world s))) kw (world s)
       = (inr m, w1) ->
     hasattr_add_model_tags E m w1 = false ->
     standard_construction E cfg kw None s =
     (Ok m,
      if decide (TaggingUnavailable ∈ warned_once s) then
        State (model_args s) w1 (records s) (warned_once s)
          (trace s ++ [Event (standard_call cfg kw s) (inr (RModel m))])
      else
        State (model_args s) w1
          (records s ++ [LogRecord WARNING TaggingUnavailable])
          (TaggingUnavailable :: warned_once s)
          (trace s ++ [Event (standard_call cfg kw s) (inr (RModel m))]))).
Proof.
  split_and!.
  - done.
  - intros m w1 w2 Hc Hh Ht. unfold_loader. cbn. rewrite Hc. cbn.
    rewrite Hh. cbn. rewrite Ht. cbn. by rewrite <- app_assoc.
  - intros m w1 Hc Hh. unfold_loader. cbn. rewrite Hc. cbn. rewrite Hh. cbn.
    by case_decide.
Qed.

End Tagging.

(** The run that contradicts C4 as it was stated: a llama model built on
    the accelerated path, without [add_model_tags]; the run returns, no tag
    was recorded and no warning about tagging was logged. *)
Lemma accelerated_path_skips_tagging :
  (Toy.load Toy.llama (Toy.args "m" true None) true false).1
    = Ok ("FastLlamaModel"%string, "tokenizer of m"%string) /\
  filter (fun ev => is_tagging ev = true)
    (trace (Toy.load Toy.llama (Toy.args "m" true None) true false).2) = [] /\
  records (Toy.load Toy.llama (Toy.args "m" true None) true false).2
    = [LogRecord INFO (ParamCounts 3 10)].
Proof. vm_compute. done. Qed.

(** ** The constructor selector *)

Section Selector.
Context {E : Collaborators}.
Implicit Types (s : state E) (evs : list (event E)) (ev : event E).

(** Lines 81-99 look at the model name, the compute dtype, the world and
    the [warning_once] cache, and at nothing else. *)
Lemma standard_construction_agree cfg kw s s' :
  model_name_or_path (model_args s') = model_name_or_path (model_args s) ->
  compute_dtype (model_args s') = compute_dtype (model_args s) ->
  world s' = world s ->
  warned_once s' = warned_once s ->
  (standard_construction E cfg kw None s').1
    = (standard_construction E cfg kw None s).1 /\
  world (standard_construction E cfg kw None s').2
    = world (standard_construction E cfg kw None s).2 /\
  exists evs,
    trace (standard_construction E cfg kw None s).2 = trace s ++ evs /\
    trace (standard_construction E cfg kw None s').2 = trace s' ++ evs /\
    Forall (fun ev => is_accelerated ev = false) evs.
Proof.
  destruct s as [a w r o t], s' as [a' w' r' o' t']. cbn.
  intros Hn Hd -> ->. unfold_loader. cbn. rewrite Hn, Hd.
  repeat (step; cbn); rewrite <- ?app_assoc;
    (split_and!; [done..|]); eexists; (split_and!; [done..|]);
    by repeat constructor.
Qed.

Lemma standard_construction_frame cfg kw model s :
  model_args (standard_construction E cfg kw model s).2 = model_args s /\
  exists recs,
    records (standard_construction E cfg kw model s).2 = records s ++ recs.
Proof.
  exec; (split; [done|]); rewrite <- ?app_assoc;
    first [by eexists | by exists []; rewrite app_nil_r].
Qed.

Lemma construct_model_fallback cfg kw s w1 :
  use_unsloth (model_args s) = true ->
  import_unsloth E (world s) = (inr tt, w1) ->
  supported (getattr_model_type E cfg w1) = false ->
  construct_model E cfg kw true s
    = standard_construction E cfg kw None (fallen_back cfg (imported w1 s)).
Proof.
  unfold supported. intros Hu Hi [Hl Hm]%orb_false_iff.
  unfold construct_model, accelerated_construction, fallen_back, imported,
    bind, get_model_args, probe, emit, set_model_args, ret, foreign, deliver.
  cbn. rewrite Hu. cbn. rewrite Hi. cbn. rewrite Hl, Hm. cbn.
  by destruct (truthy_paths (adapter_name_or_path (model_args s))).
Qed.

(** The import of line 58 comes before everything else in the block: when
    it raises, nothing has been logged or assigned. *)
Lemma construct_model_import_raises cfg kw s e w1 :
  use_unsloth (model_args s) = true ->
  import_unsloth E (world s) = (inl e, w1) ->
  construct_model E cfg kw true s =
  (Raise (Propagated e),
   State (model_args s) w1 (records s) (warned_once s)
     (trace s ++ [Event (Cimport_unsloth E) (inl e)])).
Proof.
  intros Hu Hi.
  unfold construct_model, accelerated_construction, bind, get_model_args,
    foreign, deliver.
  cbn. rewrite Hu. cbn. rewrite Hi. done.
Qed.

Lemma construct_model_opted_out cfg kw tr s :
  construct_model E cfg kw tr (opted_out s)
    = standard_construction E cfg kw None (opted_out s).
Proof.
  unfold construct_model, accelerated_construction, bind, get_model_args, ret.
  cbn. by rewrite andb_false_r.
Qed.

(** C2, as the code has it.  (1) An accelerated constructor is called only
    if trainable mode is requested, the opt-in flag is set, the import of
    [unsloth] returned and the family is llama or mistral.  (2) In trainable
    mode with the flag set, the import comes first, whatever the family:
    when it raises, the selector ends there with its exception, nothing
    logged and the flag as it was.  (3) When it returns and the family is
    any other, the selector logs the warning naming the family, clears the
    flag and goes on to the standard constructor: after the import it makes
    the calls, and ends with the result and in the world, that it would
    have with the flag cleared beforehand, in the world the import left. *)
Theorem constructor_selection (cfg : Config E)
    (kw : gmap string (kwval (KwObj E))) s :
  (forall is_trainable evs ev,
     trace (construct_model E cfg kw is_trainable s).2 = trace s ++ evs ->
     ev ∈ evs -> is_accelerated ev = true ->
     is_trainable = true /\ use_unsloth (model_args s) = true /\
     (import_unsloth E (world s)).1 = inr tt /\
     supported (getattr_model_type E cfg (import_unsloth E (world s)).2)
       = true) /\
  (forall e w1,
     use_unsloth (model_args s) = true ->
     import_unsloth E (world s) = (inl e, w1) ->
     construct_model E cfg kw true s =
     (Raise (Propagated e),
      State (model_args s) w1 (records s) (warned_once s)
        (trace s ++ [Event (Cimport_unsloth E) (inl e)]))) /\
  (forall w1,
     use_unsloth (model_args s) = true ->
     import_unsloth E (world s) = (inr tt, w1) ->
     supported (getattr_model_type E cfg w1) = false ->
     (construct_model E cfg kw true s).1
       = (construct_model E cfg kw true (opted_out (imported w1 s))).1 /\
     world (construct_model E cfg kw true s).2
       = world (construct_model E cfg kw true (opted_out (imported w1 s))).2
     /\
     use_unsloth (model_args (construct_model E cfg kw true s).2) = false /\
     (exists rest,
        records (construct_model E cfg kw true s).2
          = records s ++
            LogRecord WARNING
              (UnslothUnsupportedType (getattr_model_type E cfg w1))
            :: rest) /\
     exists evs,
       trace (construct_model E cfg kw true s).2
         = trace s ++ Event (Cimport_unsloth E) (inr RNone) :: evs /\
       trace (construct_model E cfg kw true (opted_out (imported w1 s))).2
         = trace (imported w1 s) ++ evs /\
       Forall (fun ev => is_accelerated ev = false) evs).
Proof.
  split_and!.
  - intros tr evs ev. unfold supported. exec;
      rewrite <- ?app_assoc, ?app_nil_r;
      intros Ht;
      try (apply app_inv_head in Ht; subst evs);
      try (symmetry in Ht; apply app_inv_tail_iff with (l1 := []) in Ht;
           subst evs);
      intros Hin Hacc;
      repeat (apply elem_of_cons in Hin as [->|Hin]; [try discriminate|]);
      try (by apply elem_of_nil in Hin);
      repeat match goal with
             | H : _ && _ = true |- _ => apply andb_true_iff in H as [? ?]
             | u : unit |- _ => destruct u
             end;
      subst; split_and!; try done.
  - intros e w1. apply construct_model_import_raises.
  - intros w1 Hu Hi Hs.
    rewrite (construct_model_fallback cfg kw s w1 Hu Hi Hs),
      construct_model_opted_out.
    destruct (standard_construction_agree cfg kw (opted_out (imported w1 s))
                (fallen_back cfg (imported w1 s)))
      as (Hr & Hw & evs & Ht0 & Ht & Hacc).
    1-4: unfold fallen_back, opted_out, imported; cbn;
         by destruct (truthy_paths (adapter_name_or_path (model_args s))).
    destruct (standard_construction_frame cfg kw None
                (fallen_back cfg (imported w1 s)))
      as (Ha & recs & Hrec).
    split_and!; [done|done| | |].
    + rewrite Ha. unfold fallen_back, imported. cbn.
      by destruct (truthy_paths (adapter_name_or_path (model_args s))).
    + rewrite Hrec. unfold fallen_back, imported. cbn.
      destruct (truthy_paths (adapter_name_or_path (model_args s))); cbn;
        rewrite <- ?app_assoc; cbn; by eexists.
    + exists evs. split_and!; [|done|done]. rewrite Ht.
      unfold fallen_back, imported. cbn.
      destruct (truthy_paths (adapter_name_or_path (model_args s))); cbn;
        by rewrite <- app_assoc.
Qed.

End Selector.

(** The run that contradicts C2 as it was stated: an unsupported family
    with the opt-in flag set, but not in trainable mode.  The model is built
    by the standard constructor; no warning is logged and the flag is still
    set when the run returns. *)
Lemma opt_in_ignored_when_not_trainable :
  (Toy.load Toy.gpt2 (Toy.args "m" true None) false false).1
    = Ok ("AutoModelForCausalLM"%string, "tokenizer of m"%string) /\
  use_unsloth
    (model_args (Toy.load Toy.gpt2 (Toy.args "m" true None) false false).2)
    = true /\
  records (Toy.load Toy.gpt2 (Toy.args "m" true None) false false).2
    = [LogRecord INFO (ParamCounts 3 10); LogRecord INFO InferenceOnly].
Proof. vm_compute. done. Qed.

(** ** The adapter request *)

Section AdapterRequest.
Context {E : Collaborators}.
Implicit Types (s : state E).

(** Lines 77-79 sit after the family test, not inside its supported
    branches: whenever the opt-in flag is set in trainable mode, [unsloth]
    imports and adapter paths are given, the request is dropped -- also when
    the family is unsupported and no accelerated constructor is used. *)
Lemma fallback_clears_adapter_request (cfg : Config E) s w1 :
  use_unsloth (model_args s) = true ->
  import_unsloth E (world s) = (inr tt, w1) ->
  supported (getattr_model_type E cfg w1) = false ->
  truthy_paths (adapter_name_or_path (model_args s)) = true ->
  accelerated_construction E cfg true s =
  (Ok None,
   State
     (assign_adapter_name_or_path None
        (assign_use_unsloth false (model_args s)))
     w1
     (records s ++
      [LogRecord WARNING
         (UnslothUnsupportedType (getattr_model_type E cfg w1));
       LogRecord WARNING UnslothNoAdapters])
     (warned_once s)
     (trace s ++ [Event (Cimport_unsloth E) (inr RNone)])).
Proof.
  unfold supported. intros Hu Hi [Hl Hm]%orb_false_iff Hp.
  unfold accelerated_construction, bind, get_model_args, probe, emit,
    set_model_args, ret, foreign, deliver.
  cbn. rewrite Hu. cbn. rewrite Hi. cbn. rewrite Hl, Hm. cbn. rewrite Hp. cbn.
  by rewrite <- app_assoc.
Qed.

End AdapterRequest.

(** C3 does not hold of the code.  A trainable run on a gpt2 model with the
    opt-in flag set and the adapter path list ["ckpt"]: no accelerated
    constructor is called and the model is the standard constructor's, yet
    [init_adapter] is handed [model_args] with no adapter path, the caller's
    list is gone, and the log says that Unsloth does not support loading
    adapters. *)
Theorem fallback_drops_adapter_request :
  (Toy.load Toy.gpt2 (Toy.args "m" true (Some ["ckpt"%string])) true false).1
    = Ok ("AutoModelForCausalLM"%string, "tokenizer of m"%string) /\
  filter (fun ev => is_accelerated ev = true)
    (trace (Toy.load Toy.gpt2 (Toy.args "m" true (Some ["ckpt"%string]))
              true false).2) = [] /\
  omap adapter_request
    (trace (Toy.load Toy.gpt2 (Toy.args "m" true (Some ["ckpt"%string]))
              true false).2) = [None] /\
  adapter_name_or_path
    (model_args (Toy.load Toy.gpt2 (Toy.args "m" true (Some ["ckpt"%string]))
                   true false).2) = None /\
  records (Toy.load Toy.gpt2 (Toy.args "m" true (Some ["ckpt"%string]))
             true false).2
    = [LogRecord WARNING (UnslothUnsupportedType (Some "gpt2"%string));
       LogRecord WARNING UnslothNoAdapters;
       LogRecord INFO (ParamCounts 3 10)].
Proof. vm_compute. done. Qed.

(** ** The caller's [model_args] *)

Section Frame.
Context {E : Collaborators}.
Implicit Types (s : state E) (a : ModelArguments (Dtype E) (Rest E)).

Lemma keeps_bind {A B} (m : M E A) (f : A -> M E B) :
  keeps m -> (forall x, keeps (f x)) -> keeps (bind m f).
Proof.
  intros Hm Hf s. unfold bind. specialize (Hm s).
  destruct (m s) as [[x|e] s1]; cbn in *; [|done]. by rewrite Hf.
Qed.

Lemma keeps_foreign {A} c inj (f : World E -> (Exn E + A) * World E) :
  keeps (foreign E c inj f).
Proof.
  intros s. unfold foreign. by destruct (f (world s)) as [[e|x] w].
Qed.

Lemma keeps_foreign_ma {A} c inj
    (f : ModelArguments (Dtype E) (Rest E) -> World E ->
         (Exn E + A) * ModelArguments (Dtype E) (Rest E) * World E) :
  (forall a w, (f a w).1.2 = a) -> keeps (foreign_ma E c inj f).
Proof.
  intros Hf s. unfold foreign_ma. specialize (Hf (model_args s) (world s)).
  by destruct (f (model_args s) (world s)) as [[[e|x] a] w].
Qed.

Lemma keeps_patch_config cfg tok kw tr :
  @preserving E -> keeps (call_patch_config E cfg tok kw tr).
Proof.
  intros HE s. unfold call_patch_config.
  pose proof (patch_config_preserves HE cfg tok (model_args s) kw tr (world s)).
  by destruct (patch_config E cfg tok (model_args s) kw tr (world s))
    as [[[[e|x] a] kw'] w].
Qed.

Lemma keeps_plain {A} (m : M E A) :
  (forall s, model_args (m s).2 = model_args s) -> keeps m.
Proof. done. Qed.

End Frame.

Ltac keeps_tac HE :=
  repeat first
    [ apply keeps_bind; [|intros ?]
    | apply keeps_foreign
    | apply keeps_foreign_ma; intros; apply HE
    | apply keeps_patch_config; exact HE
    | apply keeps_plain; intros ?;
      unfold ret, raise, probe, emit, warning_once, get_model_args,
        vhead_source;
      cbn; repeat case_match; cbn; done
    | match goal with
      | |- keeps (if ?b then _ else _) => destruct b
      | |- keeps (match ?x with _ => _ end) => destruct x
      | |- keeps (let '(_, _) := ?x in _) => destruct x
      end ].

Section FrameStages.
Context {E : Collaborators} (HE : @preserving E).
Implicit Types (s : state E) (a : ModelArguments (Dtype E) (Rest E)).

Lemma load_tokenizer_and_config_keeps tr :
  keeps (load_tokenizer_and_config E tr).
Proof. unfold load_tokenizer_and_config. keeps_tac HE. Qed.

Lemma standard_construction_keeps cfg kw model :
  keeps (standard_construction E cfg kw model).
Proof. unfold standard_construction. keeps_tac HE. Qed.

Lemma patch_and_adapt_keeps tok cfg m fa tr :
  keeps (patch_and_adapt E tok cfg m fa tr).
Proof. unfold patch_and_adapt. keeps_tac HE. Qed.

Lemma finish_keeps (tok : Tokenizer E) m tr vh :
  keeps (finish tok m tr vh).
Proof.
  unfold finish, compose_valuehead, finalize_mode, report_parameters.
  keeps_tac HE.
Qed.

End FrameStages.

Section FrameTheorem.
Context {E : Collaborators}.
Implicit Types (s : state E) (a : ModelArguments (Dtype E) (Rest E)).

Lemma only_cleared_refl tr a : only_cleared tr a a.
Proof. unfold only_cleared, same_elsewhere. by split_and!; try left. Qed.

Lemma only_cleared_unchanged tr a a' :
  only_cleared tr a a' -> tr && use_unsloth a = false -> a' = a.
Proof.
  destruct a, a'. unfold only_cleared, same_elsewhere. cbn.
  intros ((-> & -> & -> & -> & -> & -> & -> & -> & -> & ->) & Hu & Ha) Hoff.
  destruct Hu as [->|(-> & -> & _)]; [|done].
  destruct Ha as [->|(-> & -> & _)]; done.
Qed.

Lemma accelerated_construction_only_cleared cfg tr s :
  only_cleared tr (model_args s)
    (model_args (accelerated_construction E cfg tr s).2).
Proof.
  exec; try apply only_cleared_refl;
    repeat match goal with
           | H : _ && _ = true |- _ => apply andb_true_iff in H as [-> ?]
           end;
    unfold only_cleared, same_elsewhere; cbn; split_and!; auto.
Qed.

(** C1, as the code has it.  Provided the collaborators that are handed
    [model_args] do not assign to it, a run leaves every attribute of the
    caller's [model_args] as it found it, save two: [use_unsloth], which may
    have been cleared, and [adapter_name_or_path], which may have been set
    to [None] -- and those only in trainable mode with [use_unsloth] set on
    entry.  A run with [is_trainable] false, or entered with the flag not
    set, hands [model_args] back unchanged. *)
Theorem model_args_only_cleared (HE : @preserving E)
    (fa : FinetuningArguments E) (is_trainable add_valuehead : bool) s :
  only_cleared is_trainable (model_args s)
    (model_args (load_model_and_tokenizer E fa is_trainable add_valuehead s).2)
  /\
  (is_trainable && use_unsloth (model_args s) = false ->
   model_args (load_model_and_tokenizer E fa is_trainable add_valuehead s).2
     = model_args s).
Proof.
  assert (only_cleared is_trainable (model_args s)
            (model_args
               (load_model_and_tokenizer E fa is_trainable add_valuehead s).2))
    as H.
  { unfold load_model_and_tokenizer, construct_model, bind.
    pose proof (load_tokenizer_and_config_keeps HE is_trainable s) as K1.
    destruct (load_tokenizer_and_config E is_trainable s)
      as [[[[tok cfg] kw]|x] s1]; cbn [fst snd] in *;
      [|rewrite K1; apply only_cleared_refl].
    pose proof (accelerated_construction_only_cleared cfg is_trainable s1)
      as K2.
    rewrite K1 in K2.
    destruct (accelerated_construction E cfg is_trainable s1)
      as [[model|x] s2]; cbn [fst snd] in *; [|done].
    pose proof (standard_construction_keeps cfg kw model s2) as K3.
    destruct (standard_construction E cfg kw model s2) as [[m|x] s3];
      cbn [fst snd] in *; [|by rewrite K3].
    pose proof (patch_and_adapt_keeps HE tok cfg m fa is_trainable s3) as K4.
    destruct (patch_and_adapt E tok cfg m fa is_trainable s3)
      as [[m1|x] s4]; cbn [fst snd] in *; [|by rewrite K4, K3].
    pose proof (finish_keeps HE tok m1 is_trainable add_valuehead s4) as K5.
    unfold finish, bind in K5. by rewrite K5, K4, K3. }
  split; [done|]. intros Hoff. by eapply only_cleared_unchanged.
Qed.

End FrameTheorem.

(** The run that contradicts C1 as it was stated: a trainable run on a
    gpt2 model, entered with the opt-in flag set, returns with the flag
    cleared in the caller's [model_args]. *)
Lemma opt_in_flag_cleared_for_caller :
  (Toy.load Toy.gpt2 (Toy.args "m" true None) true false).1
    = Ok ("AutoModelForCausalLM"%string, "tokenizer of m"%string) /\
  use_unsloth (Toy.args "m" true None) = true /\
  use_unsloth
    (model_args (Toy.load Toy.gpt2 (Toy.args "m" true None) true false).2)
    = false /\
  model_args (Toy.load Toy.gpt2 (Toy.args "m" true None) true false).2
    <> Toy.args "m" true None.
Proof. vm_compute. split_and!; done. Qed.

(** ** The statements above, on runs of the concrete collaborators *)

Module Runs.
Import Toy.



(** A model without parameters: the run ends in a division error. *)
Lemma zero_total_raises_division_error_witness :
  trace (load_model_and_tokenizer Z0 tt false false start_Z0).2
    = trace start_Z0 ++
      trace (load_model_and_tokenizer Z0 tt false false start_Z0).2 /\
  counted_nothing
    ∈ trace (load_model_and_tokenizer Z0 tt false false start_Z0).2 /\
  (load_model_and_tokenizer Z0 tt false false start_Z0).1
    = Raise ZeroDivisionError /\
  exists pre,
    trace (load_model_and_tokenizer Z0 tt false false start_Z0).2
      = pre ++ [counted_nothing].
Proof.
  assert (trace (load_model_and_tokenizer Z0 tt false false start_Z0).2
          = trace start_Z0 ++
            trace (load_model_and_tokenizer Z0 tt false false start_Z0).2)
    as Ht by (vm_compute; reflexivity).
  assert (counted_nothing
            ∈ trace (load_model_and_tokenizer Z0 tt false false start_Z0).2)
    as Hin.
  { apply list_elem_of_lookup. exists 13%nat. vm_compute. reflexivity. }
  split; [exact Ht|]. split; [exact Hin|].
  exact (zero_total_raises_division_error (E := Z0) tt false false start_Z0
           _ "AutoModelForCausalLM"%string 0 Ht Hin).
Defined.

(** An inference run on gpt2 returns and reports 3 of 10 parameters. *)
Lemma returning_run_reports_counts_witness :
  (load_model_and_tokenizer G tt false false (start_gpt2 false)).1
    = Ok ("AutoModelForCausalLM"%string, "tokenizer of m"%string) /\
  exists earlier pre t a,
    a <> 0 /\
    trace (load_model_and_tokenizer G tt false false (start_gpt2 false)).2
      = pre ++
        [Event (Ccount_parameters G "AutoModelForCausalLM"%string)
           (inr (RCounts t a))] /\
    records (load_model_and_tokenizer G tt false false (start_gpt2 false)).2
      = earlier ++
        [LogRecord INFO (ParamCounts t a); LogRecord INFO InferenceOnly].
Proof.
  assert ((load_model_and_tokenizer G tt false false (start_gpt2 false)).1
          = Ok ("AutoModelForCausalLM"%string, "tokenizer of m"%string)) as H
    by (vm_compute; reflexivity).
  split; [exact H|].
  exact (returning_run_reports_counts (E := G) tt false false
           (start_gpt2 false) _ _ H).
Defined.

(** The finalizer in training mode, on a quantized and on a plain model. *)
Lemma mode_finalizer_witness :
  finalize_mode G "model"%string true (start_gpt2 false) =
  (Ok (E := G) "model"%string,
   State (E := G) (Toy.args "m" false None) 1%nat [] []
     [Event (Ctrain G "model"%string) (inr RNone)]) /\
  finalize_mode Q "model"%string false start_Q =
  (Ok (E := Q) "model"%string,
   State (E := Q) (Toy.args "m" false None) 2%nat [] []
     [Event (Crequires_grad_ Q "model"%string false) (inr RNone);
      Event (Ceval Q "model"%string) (inr RNone)]) /\
  finalize_mode G "model"%string false (start_gpt2 false) =
  (Ok (E := G) "model"%string,
   State (E := G) (Toy.args "m" false None) 3%nat [] []
     [Event (Crequires_grad_ G "model"%string false) (inr RNone);
      Event (Cto G "model"%string (Some "float16"%string))
        (inr (RModel (E := G) "model"%string));
      Event (Ceval G "model"%string) (inr RNone)]).
Proof.
  split_and!.
  - exact (proj1 (mode_finalizer (E := G) "model"%string (start_gpt2 false))
             1%nat eq_refl).
  - exact (proj1 (proj2 (mode_finalizer (E := Q) "model"%string start_Q))
             1%nat 2%nat eq_refl eq_refl eq_refl).
  - exact (proj2 (proj2 (mode_finalizer (E := G) "model"%string
                           (start_gpt2 false)))
             1%nat 2%nat 3%nat "model"%string eq_refl eq_refl eq_refl eq_refl).
Defined.

(** The composer without, and with, weights at the source. *)
Lemma value_head_restoration_witness :
  restoration_source (E := G) (Toy.args "m" false None) "m"%string /\
  compose_valuehead G "model"%string true (start_gpt2 false) =
  (Ok (E := G) "ValueHead model"%string,
   State (E := G) (Toy.args "m" false None) 3%nat [] []
     [Event (CAutoModelForCausalLMWithValueHead_from_pretrained G
               "model"%string)
        (inr (RModel (E := G) "ValueHead model"%string));
      Event (Cpatch_valuehead_model G "ValueHead model"%string) (inr RNone);
      params_requested]) /\
  compose_valuehead V "model"%string true start_V =
  (Ok (E := V) "ValueHead model"%string,
   State (E := V) (Toy.args "m" false (Some ["a"; "b"]%string)) 4%nat
     [LogRecord INFO (LoadedValuehead "b")] []
     [Event (CAutoModelForCausalLMWithValueHead_from_pretrained V
               "model"%string)
        (inr (RModel (E := V) "ValueHead model"%string));
      Event (Cpatch_valuehead_model V "ValueHead model"%string) (inr RNone);
      Event (Cload_valuehead_params V "b"%string
               (Toy.args "m" false (Some ["a"; "b"]%string)))
        (inr (RParams (E := V) (Some tt)));
      Event (Cload_state_dict V "ValueHead model"%string tt false)
        (inr RNone)]).
Proof.
  split_and!.
  - refine (proj1 (value_head_restoration (E := G) "model"%string
                     (start_gpt2 false))
              (trace (compose_valuehead G "model"%string true
                        (start_gpt2 false)).2)
              "m"%string (Toy.args "m" false None)
              (inr (RParams (E := G) None))
              eq_refl _).
    apply list_elem_of_lookup. exists 2%nat. reflexivity.
  - exact (proj1 (proj2 (value_head_restoration (E := G) "model"%string
                           (start_gpt2 false)))
             "ValueHead model"%string 1%nat 2%nat 3%nat "m"%string
             (Toy.args "m" false None) eq_refl eq_refl eq_refl eq_refl).
  - exact (proj2 (proj2 (value_head_restoration (E := V) "model"%string
                           start_V))
             "ValueHead model"%string 1%nat 2%nat 3%nat 4%nat "b"%string
             (Toy.args "m" false (Some ["a"; "b"]%string)) tt
             eq_refl eq_refl eq_refl eq_refl eq_refl).
Defined.

(** The standard path with and without [add_model_tags]. *)
Lemma provenance_tag_on_standard_path_witness :
  standard_construction G "config"%string kwargs0 None (start_gpt2 false) =
  (Ok (E := G) "AutoModelForCausalLM"%string,
   State (E := G) (Toy.args "m" false None) 2%nat [] []
     [Event (standard_call (E := G) "config"%string kwargs0
               (start_gpt2 false))
        (inr (RModel (E := G) "AutoModelForCausalLM"%string));
      Event (Cadd_model_tags G "AutoModelForCausalLM"%string
               ["llama-factory"%string])
        (inr RNone)]) /\
  standard_construction U "config"%string kwargs0 None start_U =
  (Ok (E := U) "AutoModelForCausalLM"%string,
   State (E := U) (Toy.args "m" false None) 1%nat
     [LogRecord WARNING TaggingUnavailable] [TaggingUnavailable]
     [Event (standard_call (E := U) "config"%string kwargs0 start_U)
        (inr (RModel (E := U) "AutoModelForCausalLM"%string))]).
Proof.
  split.
  - exact (proj1 (proj2 (provenance_tag_on_standard_path (E := G)
                           "config"%string kwargs0 (start_gpt2 false)))
             "AutoModelForCausalLM"%string 1%nat 2%nat
             eq_refl eq_refl eq_refl).
  - exact (proj2 (proj2 (provenance_tag_on_standard_path (E := U)
                           "config"%string kwargs0 start_U))
             "AutoModelForCausalLM"%string 1%nat eq_refl eq_refl).
Defined.

(** The selector with the opt-in flag set: on a llama model, without the
    [unsloth] package, and on a gpt2 model. *)
Lemma constructor_selection_witness :
  (trace (construct_model L "config"%string kwargs0 true start_L).2
     = trace start_L ++ [unsloth_imported; llama_built] /\
   llama_built ∈ [unsloth_imported; llama_built] /\
   is_accelerated llama_built = true /\
   use_unsloth (model_args start_L) = true /\
   (import_unsloth L (world start_L)).1 = inr tt /\
   supported
     (getattr_model_type L "config"%string
        (import_unsloth L (world start_L)).2) = true)
  /\
  (use_unsloth (model_args start_N) = true /\
   import_unsloth N (world start_N) = (inl "unsloth"%string, 1%nat) /\
   construct_model N "config"%string kwargs0 true start_N =
   (Raise (Propagated (E := N) "unsloth"%string),
    State (E := N) (model_args start_N) 1%nat (records start_N)
      (warned_once start_N)
      (trace start_N ++
       [Event (E := N) (Cimport_unsloth N) (inl "unsloth"%string)])))
  /\
  (use_unsloth (model_args (start_gpt2 true)) = true /\
   import_unsloth G (world (start_gpt2 true)) = (inr tt, 1%nat) /\
   supported (getattr_model_type G "config"%string 1%nat) = false /\
   (construct_model G "config"%string kwargs0 true (start_gpt2 true)).1
     = (construct_model G "config"%string kwargs0 true
          (opted_out (imported (E := G) 1%nat (start_gpt2 true)))).1 /\
   use_unsloth
     (model_args
        (construct_model G "config"%string kwargs0 true (start_gpt2 true)).2)
     = false).
Proof.
  split; [|split].
  - assert (trace (construct_model L "config"%string kwargs0 true start_L).2
            = trace start_L ++ [unsloth_imported; llama_built]) as Ht
      by reflexivity.
    assert (llama_built ∈ [unsloth_imported; llama_built]) as Hin
      by (apply list_elem_of_further, list_elem_of_here).
    assert (is_accelerated llama_built = true) as Hacc by reflexivity.
    split_and!; [exact Ht|exact Hin|exact Hacc|..];
      apply (proj1 (constructor_selection (E := L) "config"%string kwargs0
                      start_L) true [unsloth_imported; llama_built]
               llama_built Ht Hin Hacc).
  - assert (use_unsloth (model_args start_N) = true) as Hu by reflexivity.
    assert (import_unsloth N (world start_N) = (inl "unsloth"%string, 1%nat))
      as Hi by reflexivity.
    split_and!; [exact Hu|exact Hi|].
    exact (proj1 (proj2 (constructor_selection (E := N) "config"%string
                           kwargs0 start_N)) _ _ Hu Hi).
  - assert (use_unsloth (model_args (start_gpt2 true)) = true) as Hu
      by reflexivity.
    assert (import_unsloth G (world (start_gpt2 true)) = (inr tt, 1%nat))
      as Hi by reflexivity.
    assert (supported (getattr_model_type G "config"%string 1%nat) = false)
      as Hs by reflexivity.
    split_and!; [exact Hu|exact Hi|exact Hs|..];
      apply (proj2 (proj2 (constructor_selection (E := G) "config"%string
                             kwargs0 (start_gpt2 true))) 1%nat Hu Hi Hs).
Defined.

(** The gpt2 collaborators leave [model_args] alone. *)
Lemma model_args_only_cleared_witness :
  preserving (E := G) /\
  only_cleared true (model_args (start_gpt2 true))
    (model_args
       (load_model_and_tokenizer G tt true false (start_gpt2 true)).2) /\
  model_args (load_model_and_tokenizer G tt false false (start_gpt2 true)).2
    = model_args (start_gpt2 true).
Proof.
  assert (preserving (E := G)) as HG by (constructor; intros; reflexivity).
  split_and!.
  - exact HG.
  - exact (proj1 (model_args_only_cleared HG tt true false (start_gpt2 true))).
  - exact (proj2 (model_args_only_cleared HG tt false false (start_gpt2 true))
             eq_refl).
Defined.

End Runs.

(** ** Log records *)

Section Records.
Context {E : Collaborators}.
Implicit Types (s : state E).

Lemma rspec_bind {A B} P (m : M E A) (f : A -> M E B) :
  rspec P m -> (forall a, rspec P (f a)) -> rspec P (bind m f).
Proof.
  intros Hm Hf s. unfold bind. destruct (Hm s) as (r1 & Hr1 & HP1).
  destruct (m s) as [[a|e] s1]; cbn in *.
  - destruct (Hf a s1) as (r2 & Hr2 & HP2). exists (r1 ++ r2). split.
    + by rewrite Hr2, Hr1, app_assoc.
    + by apply Forall_app.
  - by exists r1.
Qed.

Lemma rspec_silent {A} P (m : M E A) :
  (forall s, records (m s).2 = records s) -> rspec P m.
Proof.
  intros H s. exists []. rewrite app_nil_r. split; [done|constructor].
Qed.

Lemma rspec_emit P l msg : P (LogRecord l msg) -> rspec P (emit E l msg).
Proof. intros HP s. exists [LogRecord l msg]. by repeat constructor. Qed.

Lemma rspec_warning_once P msg :
  P (LogRecord WARNING msg) -> rspec P (warning_once E msg).
Proof.
  intros HP s. unfold warning_once. case_decide; cbn.
  - exists []. rewrite app_nil_r. split; [done|constructor].
  - exists [LogRecord WARNING msg]. by repeat constructor.
Qed.

Lemma logged_spec {A} P (m : M E A) s :
  rspec P m ->
  records (m s).2 = records s ++ logged m s /\ Forall P (logged m s).
Proof.
  intros Hm. destruct (Hm s) as (recs & Hr & HP). unfold logged.
  by rewrite Hr, drop_app_length.
Qed.

End Records.

(** Proves [rspec P m] by following the structure of [m]; what is left are
    the records [m] can log. *)
Ltac rspec_tac :=
  repeat first
    [ apply rspec_bind; [|intros ?]
    | apply rspec_emit
    | apply rspec_warning_once
    | apply rspec_silent; intros ?;
      unfold ret, raise, probe, get_model_args, set_model_args, vhead_source,
        foreign, foreign_ma, call_patch_config, deliver;
      cbn; repeat case_match; cbn; done
    | match goal with
      | |- rspec _ (if ?b then _ else _) => destruct b
      | |- rspec _ (match ?x with _ => _ end) => destruct x
      | |- rspec _ (let '(_, _) := ?x in _) => destruct x
      end ].

Section StageRecords.
Context {E : Collaborators}.
Implicit Types (s : state E).

Lemma load_tokenizer_and_config_rspec P tr :
  rspec P (load_tokenizer_and_config E tr).
Proof. unfold load_tokenizer_and_config. rspec_tac. Qed.

Lemma patch_and_adapt_rspec P tok cfg m fa tr :
  rspec P (patch_and_adapt E tok cfg m fa tr).
Proof. unfold patch_and_adapt. rspec_tac. Qed.

Lemma finalize_mode_rspec P m tr : rspec P (finalize_mode E m tr).
Proof. unfold finalize_mode. rspec_tac. Qed.

Lemma construct_model_rspec P cfg kw tr :
  (forall t, P (LogRecord WARNING (UnslothUnsupportedType t))) ->
  P (LogRecord WARNING UnslothNoAdapters) ->
  P (LogRecord WARNING TaggingUnavailable) ->
  rspec P (construct_model E cfg kw tr).
Proof.
  intros. unfold construct_model, accelerated_construction,
    standard_construction.
  rspec_tac; auto.
Qed.

Lemma compose_valuehead_rspec P m vh :
  (forall path, P (LogRecord INFO (LoadedValuehead path))) ->
  rspec P (compose_valuehead E m vh).
Proof. intros. unfold compose_valuehead. rspec_tac; auto. Qed.

Lemma report_parameters_rspec P m tr :
  (forall t a, P (LogRecord INFO (ParamCounts t a))) ->
  P (LogRecord INFO InferenceOnly) ->
  rspec P (report_parameters E m tr).
Proof. intros. unfold report_parameters. rspec_tac; auto. Qed.

End StageRecords.

(** ** Runs, stage by stage *)

Section RunOf.
Context {E : Collaborators}.
Implicit Types (s : state E) (evs : list (event E)) (ev : event E).

Lemma emitted_spec {A} P (m : M E A) s :
  tspec P m ->
  trace (m s).2 = trace s ++ emitted m s /\
  Forall P (emitted m s) /\
  propagates (emitted m s) (failure (m s).1).
Proof.
  intros Hm. destruct (Hm s) as (evs & Ht & HP & Hp). unfold emitted.
  rewrite Ht, drop_app_length. done.
Qed.

Lemma trace_load_tokenizer_and_config tr s :
  trace (load_tokenizer_and_config E tr s).2
    = trace s ++ emitted (load_tokenizer_and_config E tr) s.
Proof. eapply emitted_spec, load_tokenizer_and_config_tspec. Qed.

Lemma trace_construct_model cfg kw tr s :
  trace (construct_model E cfg kw tr s).2
    = trace s ++ emitted (construct_model E cfg kw tr) s.
Proof. eapply emitted_spec, construct_model_tspec. Qed.

Lemma trace_patch_and_adapt tok cfg m fa tr s :
  trace (patch_and_adapt E tok cfg m fa tr s).2
    = trace s ++ emitted (patch_and_adapt E tok cfg m fa tr) s.
Proof. eapply emitted_spec, patch_and_adapt_tspec. Qed.

Lemma trace_compose_valuehead m vh s :
  trace (compose_valuehead E m vh s).2
    = trace s ++ emitted (compose_valuehead E m vh) s.
Proof. eapply emitted_spec, compose_valuehead_tspec. Qed.

Lemma trace_finalize_mode m tr s :
  trace (finalize_mode E m tr s).2
    = trace s ++ emitted (finalize_mode E m tr) s.
Proof. eapply emitted_spec, finalize_mode_tspec. Qed.

Lemma trace_report_parameters m tr s :
  trace (report_parameters E m tr s).2
    = trace s ++ emitted (report_parameters E m tr) s.
Proof. eapply emitted_spec, report_parameters_tspec. Qed.

Lemma records_stage {A} (m : M E A) s :
  rspec (fun _ => True) m -> records (m s).2 = records s ++ logged m s.
Proof. intros H. eapply logged_spec, H. Qed.

(** Every run is of one of the seven shapes of [run_of]. *)
Lemma load_model_and_tokenizer_run_of fa tr vh s :
  run_of fa tr vh s
    (load_model_and_tokenizer E fa tr vh s).1
    (load_model_and_tokenizer E fa tr vh s).2
    (calls fa tr vh s) (log_of fa tr vh s).
Proof.
  unfold calls, log_of, emitted at 1, logged at 1.
  unfold load_model_and_tokenizer, bind, ret.
  pose proof (trace_load_tokenizer_and_config tr s) as T1.
  pose proof (records_stage (load_tokenizer_and_config E tr) s
                (load_tokenizer_and_config_rspec _ tr)) as R1.
  destruct (load_tokenizer_and_config E tr s) as [[[[tok cfg] kw]|x] s1] eqn:H1;
    cbn [fst snd] in *.
  2:{ rewrite T1, R1, !drop_app_length. by econstructor. }
  pose proof (trace_construct_model cfg kw tr s1) as T2.
  pose proof (records_stage (construct_model E cfg kw tr) s1
                (construct_model_rspec _ cfg kw tr (fun _ => I) I I)) as R2.
  destruct (construct_model E cfg kw tr s1) as [[m|x] s2] eqn:H2;
    cbn [fst snd] in *.
  2:{ rewrite T2, T1, R2, R1, <- !app_assoc, !drop_app_length.
      by econstructor. }
  pose proof (trace_patch_and_adapt tok cfg m fa tr s2) as T3.
  pose proof (records_stage (patch_and_adapt E tok cfg m fa tr) s2
                (patch_and_adapt_rspec _ tok cfg m fa tr)) as R3.
  destruct (patch_and_adapt E tok cfg m fa tr s2) as [[m1|x] s3] eqn:H3;
    cbn [fst snd] in *.
  2:{ rewrite T3, T2, T1, R3, R2, R1, <- !app_assoc, !drop_app_length.
      by econstructor. }
  pose proof (trace_compose_valuehead m1 vh s3) as T4.
  pose proof (records_stage (compose_valuehead E m1 vh) s3
                (compose_valuehead_rspec _ m1 vh (fun _ => I))) as R4.
  destruct (compose_valuehead E m1 vh s3) as [[m2|x] s4] eqn:H4;
    cbn [fst snd] in *.
  2:{ rewrite T4, T3, T2, T1, R4, R3, R2, R1, <- !app_assoc,
        !drop_app_length.
      by econstructor. }
  pose proof (trace_finalize_mode m2 tr s4) as T5.
  pose proof (records_stage (finalize_mode E m2 tr) s4
                (finalize_mode_rspec _ m2 tr)) as R5.
  destruct (finalize_mode E m2 tr s4) as [[m3|x] s5] eqn:H5;
    cbn [fst snd] in *.
  2:{ rewrite T5, T4, T3, T2, T1, R5, R4, R3, R2, R1, <- !app_assoc,
        !drop_app_length.
      by econstructor. }
  pose proof (trace_report_parameters m3 tr s5) as T6.
  pose proof (records_stage (report_parameters E m3 tr) s5
                (report_parameters_rspec _ m3 tr (fun _ _ => I) I)) as R6.
  destruct (report_parameters E m3 tr s5) as [[[]|x] s6] eqn:H6;
    cbn [fst snd] in *;
    rewrite T6, T5, T4, T3, T2, T1, R6, R5, R4, R3, R2, R1, <- !app_assoc,
      !drop_app_length;
    by econstructor.
Qed.

End RunOf.

(** Splits a goal about a run into the seven shapes a run can have. *)
Ltac run_cases fa tr vh s :=
  let H := fresh "Hrun" in
  pose proof (load_model_and_tokenizer_run_of fa tr vh s) as H;
  revert H;
  generalize (log_of fa tr vh s);
  generalize (calls fa tr vh s);
  generalize (load_model_and_tokenizer _ fa tr vh s).2;
  generalize (load_model_and_tokenizer _ fa tr vh s).1;
  intros ? ? ? ? H; destruct H.

(** Normalises [emitted m s] once [m s] has been run symbolically. *)
Ltac emitted_norm :=
  rewrite <- ?app_assoc; rewrite ?drop_app_length, ?drop_all; cbn.

Section StageFacts.
Context {E : Collaborators}.
Implicit Types (s : state E) (evs : list (event E)) (ev : event E).

Lemma emitted_resolve tr s :
  Forall (in_stage Resolve) (emitted (load_tokenizer_and_config E tr) s).
Proof. eapply emitted_spec, load_tokenizer_and_config_tspec. Qed.

Lemma emitted_construct cfg kw tr s :
  Forall (in_stage Construct) (emitted (construct_model E cfg kw tr) s).
Proof. eapply emitted_spec, construct_model_tspec. Qed.

Lemma emitted_adapt tok cfg m fa tr s :
  Forall (in_stage Adapt) (emitted (patch_and_adapt E tok cfg m fa tr) s).
Proof. eapply emitted_spec, patch_and_adapt_tspec. Qed.

Lemma emitted_valuehead m vh s :
  Forall (in_stage ValueHead) (emitted (compose_valuehead E m vh) s).
Proof. eapply emitted_spec, compose_valuehead_tspec. Qed.

Lemma emitted_finalize m tr s :
  Forall (in_stage Finalize) (emitted (finalize_mode E m tr) s).
Proof. eapply emitted_spec, finalize_mode_tspec. Qed.

Lemma emitted_report m tr s :
  Forall (in_stage Report) (emitted (report_parameters E m tr) s).
Proof. eapply emitted_spec, report_parameters_tspec. Qed.

(** A property of all calls of a stage holds of the calls a stage made. *)
Lemma stage_calls X (Q : event E -> Prop) evs :
  Forall (in_stage X) evs -> (forall ev, in_stage X ev -> Q ev) ->
  Forall Q evs.
Proof. intros H HQ. eapply Forall_impl; eauto. Qed.

End StageFacts.

Create HintDb stages.
#[global] Hint Resolve emitted_resolve emitted_construct emitted_adapt
  emitted_valuehead emitted_finalize emitted_report : stages.

(** ** The order of the calls *)

Section Order.
Context {E : Collaborators}.
Implicit Types (s : state E) (evs : list (event E)) (ev : event E).

Lemma ordered_from_nil n : ordered_from (E := E) n [].
Proof. split; constructor. Qed.

Lemma ordered_from_app X n evs1 evs2 :
  Forall (in_stage X) evs1 -> (rank X <= n)%nat -> ordered_from n evs2 ->
  ordered_from (rank X) (evs1 ++ evs2).
Proof.
  intros H1 Hn [Hs Hb]. split.
  - induction H1 as [|ev evs1 Hev H1 IH]; cbn; [done|].
    constructor; [done|]. apply Forall_app. split.
    + eapply Forall_impl; [exact H1|]. intros ev' Hev'.
      unfold stage_order. unfold in_stage in *. by rewrite Hev, Hev'.
    + eapply Forall_impl; [exact Hb|]. intros ev' Hev'.
      unfold stage_order. unfold in_stage in *. rewrite Hev. lia.
  - apply Forall_app. split.
    + eapply Forall_impl; [exact H1|]. unfold in_stage. by intros ev ->.
    + eapply Forall_impl; [exact Hb|]. cbn. intros ev ?. lia.
Qed.

Lemma ordered_from_stage X evs :
  Forall (in_stage X) evs -> ordered_from (rank X) evs.
Proof.
  intros H. rewrite <- (app_nil_r evs).
  by apply (ordered_from_app X (rank X)); [|lia|apply ordered_from_nil].
Qed.

Lemma ordered_from_next X Y evs1 evs2 :
  Forall (in_stage X) evs1 -> ordered_from (rank Y) evs2 ->
  (rank X <= rank Y)%nat ->
  ordered_from (rank X) (evs1 ++ evs2).
Proof. intros. by eapply ordered_from_app. Qed.

Lemma calls_ordered_from_resolve fa tr vh s :
  ordered_from (rank Resolve) (calls fa tr vh s).
Proof.
  run_cases fa tr vh s.
  all: let rec go :=
         first
           [ apply ordered_from_stage; solve [auto with stages]
           | eapply ordered_from_next;
             [solve [auto with stages]|go|cbn; lia] ] in
       go.
Qed.

(** X1.  The pipeline is linear: in every run, however it ends, the calls are
    made in stage order -- resolving, constructing, adapting, value head,
    finalizing, reporting -- and no stage is returned to. *)
Theorem calls_in_stage_order (fa : FinetuningArguments E)
    (is_trainable add_valuehead : bool) s :
  StronglySorted stage_order (calls fa is_trainable add_valuehead s).
Proof. apply calls_ordered_from_resolve. Qed.

End Order.

(** ** Calls a run makes once, and calls it never makes *)

(** Proves [Forall Q evs] for the calls of a whole stage, from the stage
    alone. *)
Ltac from_stage :=
  eapply stage_calls; [solve [auto with stages]|];
  let ev := fresh "ev" in
  intros ev; unfold in_stage; destruct ev as [[] ?]; cbn;
  try discriminate; intros; repeat split; congruence.

Section Gating.
Context {E : Collaborators}.
Implicit Types (s : state E) (evs : list (event E)) (ev : event E).

Lemma count_calls_app Q evs1 evs2 :
  count_calls Q (evs1 ++ evs2) = (count_calls Q evs1 + count_calls Q evs2)%nat.
Proof. unfold count_calls. by rewrite List.filter_app, length_app. Qed.

Lemma count_calls_none Q evs :
  Forall (fun ev => Q ev = false) evs -> count_calls Q evs = 0%nat.
Proof.
  unfold count_calls. induction 1 as [|ev evs Hev _ IH]; cbn; [done|].
  by rewrite Hev.
Qed.

Lemma construct_model_constructs_once cfg kw tr s :
  (count_calls is_constructor (emitted (construct_model E cfg kw tr) s)
   <= 1)%nat /\
  forall m s',
    construct_model E cfg kw tr s = (Ok m, s') ->
    count_calls is_constructor (emitted (construct_model E cfg kw tr) s)
    = 1%nat.
Proof.
  unfold emitted. exec; emitted_norm; (split; [cbn; lia|]);
    intros ? ? [=]; done.
Qed.

(** X2.  A run builds at most one model: among all its calls there is at most
    one call of a constructor (accelerated or standard), and exactly one
    when the run returns. *)
Theorem at_most_one_model_constructed (fa : FinetuningArguments E)
    (is_trainable add_valuehead : bool) s :
  (count_calls is_constructor (calls fa is_trainable add_valuehead s)
   <= 1)%nat /\
  forall r,
    (load_model_and_tokenizer E fa is_trainable add_valuehead s).1 = Ok r ->
    count_calls is_constructor (calls fa is_trainable add_valuehead s)
    = 1%nat.
Proof.
  run_cases fa is_trainable add_valuehead s;
    rewrite ?count_calls_app;
    repeat match goal with
           | |- context [count_calls is_constructor
                           (emitted (construct_model E ?cfg ?kw ?tr) ?s1)] =>
             let H := fresh in
             let H' := fresh in
             destruct (construct_model_constructs_once cfg kw tr s1)
               as [H H'];
             try (erewrite H' by eassumption);
             generalize dependent
               (count_calls is_constructor
                  (emitted (construct_model E cfg kw tr) s1))
           | |- context [count_calls is_constructor ?l] =>
             rewrite (count_calls_none is_constructor l) by from_stage
           end;
    intros; split; try lia; intros; try discriminate; lia.
Qed.

Lemma construct_model_frozen cfg kw s :
  Forall (fun ev => is_accelerated ev = false /\ trains ev = false)
    (emitted (construct_model E cfg kw false) s).
Proof. unfold emitted. exec; emitted_norm; by repeat constructor. Qed.

Lemma finalize_mode_frozen m s :
  Forall (fun ev => is_accelerated ev = false /\ trains ev = false)
    (emitted (finalize_mode E m false) s).
Proof. unfold emitted. exec; emitted_norm; by repeat constructor. Qed.

Lemma finalize_mode_training m s :
  Forall (fun ev => freezes ev = false) (emitted (finalize_mode E m true) s).
Proof. unfold emitted. exec; emitted_norm; by repeat constructor. Qed.

Lemma compose_valuehead_skipped m s :
  emitted (compose_valuehead E m false) s = [].
Proof. unfold emitted. exec. by emitted_norm. Qed.

(** X3.  The two flags gate the calls.  A run with [is_trainable] false never
    calls an accelerated constructor nor [train()]; a run with
    [is_trainable] true never calls [requires_grad_], [to] or [eval()]; a
    run with [add_valuehead] false makes no call of the value-head stage. *)
Theorem flags_gate_calls (fa : FinetuningArguments E)
    (is_trainable add_valuehead : bool) s :
  Forall (fun ev => is_accelerated ev = false /\ trains ev = false)
    (calls fa false add_valuehead s) /\
  Forall (fun ev => freezes ev = false) (calls fa true add_valuehead s) /\
  Forall (fun ev => stage_of (ev_call ev) <> ValueHead)
    (calls fa is_trainable false s).
Proof.
  split_and!.
  - run_cases fa false add_valuehead s; rewrite ?Forall_app; split_and?;
      first [apply construct_model_frozen|apply finalize_mode_frozen
            |from_stage].
  - run_cases fa true add_valuehead s; rewrite ?Forall_app; split_and?;
      first [apply finalize_mode_training|from_stage].
  - run_cases fa is_trainable false s;
      rewrite ?compose_valuehead_skipped, ?Forall_app; split_and?;
      first [by constructor|from_stage].
Qed.

End Gating.

(** ** The exceptions of a run *)

Section Exceptions.
Context {E : Collaborators}.
Implicit Types (s : state E) (evs : list (event E)) (ev : event E).











End Exceptions.

(** ** Objects handed from call to call *)

(** Settles [current] and [latest] on the explicit calls of a stage. *)
Ltac flow_leaf :=
  emitted_norm; repeat split; intros; try congruence;
  repeat match goal with
         | H : (_, _) = (_, _) |- _ => injection H as ? ?; subst
         end;
  try congruence; try done.

Section Flow.
Context {E : Collaborators}.
Implicit Types (s : state E) (evs : list (event E)) (ev : event E).

Lemma latest_app {R} (made : event E -> option R) cur evs1 evs2 :
  latest made cur (evs1 ++ evs2) = latest made (latest made cur evs1) evs2.
Proof. revert cur. induction evs1 as [|ev evs1 IH]; cbn; auto. Qed.

Lemma current_app {R} (used made : event E -> option R) cur evs1 evs2 :
  current used made cur (evs1 ++ evs2) <->
  current used made cur evs1 /\
  current used made (latest made cur evs1) evs2.
Proof.
  revert cur. induction evs1 as [|ev evs1 IH]; cbn; intros cur.
  - tauto.
  - rewrite IH. tauto.
Qed.

(** Calls that neither take nor return an object leave it current. *)
Lemma current_inert {R} (used made : event E -> option R) cur evs :
  Forall (fun ev => used ev = None /\ made ev = None) evs ->
  current used made cur evs /\ latest made cur evs = cur.
Proof.
  induction 1 as [|ev evs [Hu Hm] _ IH]; cbn; [done|].
  rewrite Hu, Hm. destruct IH. split_and!; [done|done|done].
Qed.

Lemma load_tokenizer_and_config_well_typed tr s :
  Forall well_typed (emitted (load_tokenizer_and_config E tr) s).
Proof. unfold emitted. exec; emitted_norm; by repeat constructor. Qed.

Lemma construct_model_well_typed cfg kw tr s :
  Forall well_typed (emitted (construct_model E cfg kw tr) s).
Proof. unfold emitted. exec; emitted_norm; by repeat constructor. Qed.

Lemma patch_and_adapt_well_typed tok cfg m fa tr s :
  Forall well_typed (emitted (patch_and_adapt E tok cfg m fa tr) s).
Proof. unfold emitted. exec; emitted_norm; by repeat constructor. Qed.

Lemma compose_valuehead_well_typed m vh s :
  Forall well_typed (emitted (compose_valuehead E m vh) s).
Proof. unfold emitted. exec; emitted_norm; by repeat constructor. Qed.

Lemma finalize_mode_well_typed m tr s :
  Forall well_typed (emitted (finalize_mode E m tr) s).
Proof. unfold emitted. exec; emitted_norm; by repeat constructor. Qed.

Lemma report_parameters_well_typed m tr s :
  Forall well_typed (emitted (report_parameters E m tr) s).
Proof. unfold emitted. exec; emitted_norm; by repeat constructor. Qed.

(** A stage none of whose calls takes or returns the object. *)
Lemma inert_stage {R} (used made : event E -> option R) X cur evs :
  Forall (in_stage X) evs -> Forall well_typed evs ->
  (forall ev, in_stage X ev -> well_typed ev ->
              used ev = None /\ made ev = None) ->
  current used made cur evs /\ latest made cur evs = cur.
Proof.
  intros HX HW H. apply current_inert.
  rewrite Forall_forall in *. auto.
Qed.

(** *** Models *)

Lemma construct_model_handles cfg kw tr s :
  current model_used model_made None (emitted (construct_model E cfg kw tr) s)
  /\
  forall m s',
    construct_model E cfg kw tr s = (Ok m, s') ->
    latest model_made None (emitted (construct_model E cfg kw tr) s) = Some m.
Proof. unfold emitted. exec; flow_leaf. Qed.

Lemma patch_and_adapt_handles tok cfg m fa tr s :
  current model_used model_made (Some m)
    (emitted (patch_and_adapt E tok cfg m fa tr) s) /\
  forall m' s',
    patch_and_adapt E tok cfg m fa tr s = (Ok m', s') ->
    latest model_made (Some m) (emitted (patch_and_adapt E tok cfg m fa tr) s)
    = Some m'.
Proof. unfold emitted. exec; flow_leaf. Qed.

Lemma compose_valuehead_handles m vh s :
  current model_used model_made (Some m)
    (emitted (compose_valuehead E m vh) s) /\
  forall m' s',
    compose_valuehead E m vh s = (Ok m', s') ->
    latest model_made (Some m) (emitted (compose_valuehead E m vh) s)
    = Some m'.
Proof. unfold emitted. exec; flow_leaf. Qed.

Lemma finalize_mode_handles m tr s :
  current model_used model_made (Some m) (emitted (finalize_mode E m tr) s) /\
  forall m' s',
    finalize_mode E m tr s = (Ok m', s') ->
    latest model_made (Some m) (emitted (finalize_mode E m tr) s) = Some m'.
Proof. unfold emitted. exec; flow_leaf. Qed.

Lemma report_parameters_handles m tr s :
  current model_used model_made (Some m)
    (emitted (report_parameters E m tr) s) /\
  latest model_made (Some m) (emitted (report_parameters E m tr) s) = Some m.
Proof. unfold emitted. exec; flow_leaf. Qed.

Lemma load_tokenizer_and_config_handles tr s :
  current model_used model_made None
    (emitted (load_tokenizer_and_config E tr) s) /\
  latest model_made None (emitted (load_tokenizer_and_config E tr) s) = None.
Proof.
  eapply inert_stage;
    [apply emitted_resolve|apply load_tokenizer_and_config_well_typed|].
  intros [[] [e|[]]]; unfold in_stage, well_typed; cbn; done.
Qed.

End Flow.

(** Closes the side condition of [inert_stage]. *)
Ltac inert :=
  let ev := fresh "ev" in
  intros ev; destruct ev as [[] [?|[]]]; unfold in_stage, well_typed; cbn;
  done.

Section FlowTheorems.
Context {E : Collaborators}.
Implicit Types (s : state E) (evs : list (event E)) (ev : event E).

(** X5.  No stale handle.  In every run, each call that is handed a model is
    handed the handle most recently returned -- by a constructor, by
    [init_adapter], by the value-head wrapper or by the cast -- and a run
    that returns hands back the most recent handle of all. *)
Theorem model_handle_is_current (fa : FinetuningArguments E)
    (is_trainable add_valuehead : bool) s :
  current model_used model_made None
    (calls fa is_trainable add_valuehead s) /\
  forall m tok,
    (load_model_and_tokenizer E fa is_trainable add_valuehead s).1
      = Ok (m, tok) ->
    latest model_made None (calls fa is_trainable add_valuehead s) = Some m.
Proof.
  run_cases fa is_trainable add_valuehead s;
    (split; [|intros ? ? [= <- <-]]);
    rewrite ?current_app, ?latest_app;
    rewrite ?(proj2 (load_tokenizer_and_config_handles _ _));
    try (erewrite (proj2 (construct_model_handles _ _ _ _)) by eassumption);
    try (erewrite (proj2 (patch_and_adapt_handles _ _ _ _ _ _))
           by eassumption);
    try (erewrite (proj2 (compose_valuehead_handles _ _ _)) by eassumption);
    try (erewrite (proj2 (finalize_mode_handles _ _ _)) by eassumption);
    rewrite ?(proj2 (report_parameters_handles _ _ _));
    try done;
    split_and?;
    first
      [ apply load_tokenizer_and_config_handles
      | apply construct_model_handles
      | apply patch_and_adapt_handles
      | apply compose_valuehead_handles
      | apply finalize_mode_handles
      | apply report_parameters_handles ].
Qed.

(** *** Tokenizer and configuration *)

Lemma load_tokenizer_and_config_tokenizer tr s :
  current tokenizer_used tokenizer_made None
    (emitted (load_tokenizer_and_config E tr) s) /\
  forall tok cfg kw s',
    load_tokenizer_and_config E tr s = (Ok (tok, cfg, kw), s') ->
    latest tokenizer_made None (emitted (load_tokenizer_and_config E tr) s)
    = Some tok.
Proof. unfold emitted. exec; flow_leaf. Qed.

Lemma load_tokenizer_and_config_config tr s :
  current config_used config_made None
    (emitted (load_tokenizer_and_config E tr) s) /\
  forall tok cfg kw s',
    load_tokenizer_and_config E tr s = (Ok (tok, cfg, kw), s') ->
    latest config_made None (emitted (load_tokenizer_and_config E tr) s)
    = Some cfg.
Proof. unfold emitted. exec; flow_leaf. Qed.

Lemma construct_model_tokenizer cfg kw tr s cur :
  current tokenizer_used tokenizer_made cur
    (emitted (construct_model E cfg kw tr) s) /\
  latest tokenizer_made cur (emitted (construct_model E cfg kw tr) s) = cur.
Proof.
  eapply inert_stage;
    [apply emitted_construct|apply construct_model_well_typed|inert].
Qed.

Lemma construct_model_config cfg kw tr s :
  current config_used config_made (Some cfg)
    (emitted (construct_model E cfg kw tr) s) /\
  latest config_made (Some cfg) (emitted (construct_model E cfg kw tr) s)
  = Some cfg.
Proof. unfold emitted. exec; flow_leaf. Qed.

Lemma patch_and_adapt_tokenizer tok cfg m fa tr s :
  current tokenizer_used tokenizer_made (Some tok)
    (emitted (patch_and_adapt E tok cfg m fa tr) s) /\
  latest tokenizer_made (Some tok)
    (emitted (patch_and_adapt E tok cfg m fa tr) s) = Some tok.
Proof. unfold emitted. exec; flow_leaf. Qed.

Lemma patch_and_adapt_config tok cfg m fa tr s :
  current config_used config_made (Some cfg)
    (emitted (patch_and_adapt E tok cfg m fa tr) s) /\
  latest config_made (Some cfg)
    (emitted (patch_and_adapt E tok cfg m fa tr) s) = Some cfg.
Proof. unfold emitted. exec; flow_leaf. Qed.

Lemma compose_valuehead_tokenizer m vh s cur :
  current tokenizer_used tokenizer_made cur
    (emitted (compose_valuehead E m vh) s) /\
  latest tokenizer_made cur (emitted (compose_valuehead E m vh) s) = cur.
Proof.
  eapply inert_stage;
    [apply emitted_valuehead|apply compose_valuehead_well_typed|inert].
Qed.

Lemma compose_valuehead_config m vh s cur :
  current config_used config_made cur
    (emitted (compose_valuehead E m vh) s) /\
  latest config_made cur (emitted (compose_valuehead E m vh) s) = cur.
Proof.
  eapply inert_stage;
    [apply emitted_valuehead|apply compose_valuehead_well_typed|inert].
Qed.

Lemma finalize_mode_tokenizer m tr s cur :
  current tokenizer_used tokenizer_made cur
    (emitted (finalize_mode E m tr) s) /\
  latest tokenizer_made cur (emitted (finalize_mode E m tr) s) = cur.
Proof.
  eapply inert_stage;
    [apply emitted_finalize|apply finalize_mode_well_typed|inert].
Qed.

Lemma finalize_mode_config m tr s cur :
  current config_used config_made cur (emitted (finalize_mode E m tr) s) /\
  latest config_made cur (emitted (finalize_mode E m tr) s) = cur.
Proof.
  eapply inert_stage;
    [apply emitted_finalize|apply finalize_mode_well_typed|inert].
Qed.

Lemma report_parameters_tokenizer m tr s cur :
  current tokenizer_used tokenizer_made cur
    (emitted (report_parameters E m tr) s) /\
  latest tokenizer_made cur (emitted (report_parameters E m tr) s) = cur.
Proof.
  eapply inert_stage;
    [apply emitted_report|apply report_parameters_well_typed|inert].
Qed.

Lemma report_parameters_config m tr s cur :
  current config_used config_made cur
    (emitted (report_parameters E m tr) s) /\
  latest config_made cur (emitted (report_parameters E m tr) s) = cur.
Proof.
  eapply inert_stage;
    [apply emitted_report|apply report_parameters_well_typed|inert].
Qed.

(** X6.  One tokenizer, one configuration.  In every run, each call that is
    handed a tokenizer is handed the one [AutoTokenizer.from_pretrained]
    returned, each call that is handed a configuration is handed the one
    [AutoConfig.from_pretrained] returned, and the tokenizer of a run that
    returns is that same tokenizer. *)
Theorem tokenizer_and_config_flow (fa : FinetuningArguments E)
    (is_trainable add_valuehead : bool) s :
  current tokenizer_used tokenizer_made None
    (calls fa is_trainable add_valuehead s) /\
  current config_used config_made None
    (calls fa is_trainable add_valuehead s) /\
  forall m tok,
    (load_model_and_tokenizer E fa is_trainable add_valuehead s).1
      = Ok (m, tok) ->
    latest tokenizer_made None (calls fa is_trainable add_valuehead s)
    = Some tok.
Proof.
  run_cases fa is_trainable add_valuehead s;
    (split_and!; [| |intros ? ? [= <- <-]]);
    rewrite ?current_app, ?latest_app;
    try (erewrite (proj2 (load_tokenizer_and_config_tokenizer _ _))
           by eassumption);
    try (erewrite (proj2 (load_tokenizer_and_config_config _ _))
           by eassumption);
    rewrite ?(proj2 (construct_model_tokenizer _ _ _ _ _)),
      ?(proj2 (construct_model_config _ _ _ _)),
      ?(proj2 (patch_and_adapt_tokenizer _ _ _ _ _ _)),
      ?(proj2 (patch_and_adapt_config _ _ _ _ _ _)),
      ?(proj2 (compose_valuehead_tokenizer _ _ _ _)),
      ?(proj2 (compose_valuehead_config _ _ _ _)),
      ?(proj2 (finalize_mode_tokenizer _ _ _ _)),
      ?(proj2 (finalize_mode_config _ _ _ _)),
      ?(proj2 (report_parameters_tokenizer _ _ _ _)),
      ?(proj2 (report_parameters_config _ _ _ _));
    try done;
    split_and?;
    first
      [ apply load_tokenizer_and_config_tokenizer
      | apply load_tokenizer_and_config_config
      | apply construct_model_tokenizer
      | apply construct_model_config
      | apply patch_and_adapt_tokenizer
      | apply patch_and_adapt_config
      | apply compose_valuehead_tokenizer
      | apply compose_valuehead_config
      | apply finalize_mode_tokenizer
      | apply finalize_mode_config
      | apply report_parameters_tokenizer
      | apply report_parameters_config ].
Qed.

End FlowTheorems.

(** ** The opt-in flag and the construction path *)

(** Finds the stage a call of the run belongs to; the others cannot have
    made it. *)
Ltac locate H :=
  repeat (apply elem_of_app in H as [H|H]);
  try (exfalso;
       eapply Forall_forall in H; [|solve [auto with stages]];
       discriminate H).

Section OptIn.
Context {E : Collaborators}.
Implicit Types (s : state E) (evs : list (event E)) (ev : event E).

Lemma patch_model_sees_state tok cfg m fa tr s m' tok' a tr' o :
  Event (Cpatch_model E m' tok' a tr') o
    ∈ emitted (patch_and_adapt E tok cfg m fa tr) s ->
  a = model_args s.
Proof.
  unfold emitted. exec; emitted_norm; intros Hin;
    repeat (apply elem_of_cons in Hin as [Hin|Hin];
            [try discriminate; by injection Hin as -> -> -> ->|]);
    by apply elem_of_nil in Hin.
Qed.

Lemma construct_model_flag cfg kw s m s' :
  construct_model E cfg kw true s = (Ok m, s') ->
  use_unsloth (model_args s') = true <->
  Exists (fun ev => is_accelerated ev = true)
    (emitted (construct_model E cfg kw true) s).
Proof.
  unfold emitted. exec; intros [= ? ?]; subst; emitted_norm;
    rewrite ?Exists_cons, ?Exists_nil; cbn;
    repeat match goal with
           | H : ?x = _ |- context [?x] => rewrite H
           end;
    intuition congruence.
Qed.

Lemma not_accelerated evs :
  Forall (fun ev => is_accelerated ev = false) evs ->
  ~ Exists (fun ev => is_accelerated ev = true) evs.
Proof.
  rewrite Forall_forall, Exists_exists. intros H (ev & Hin & Hacc).
  specialize (H _ Hin). congruence.
Qed.

(** X7.  When the patcher runs in trainable mode, the opt-in flag it finds in
    [model_args] tells how the model was built: the flag is set exactly when
    an accelerated constructor was called. *)
Theorem opt_in_flag_tells_the_path (fa : FinetuningArguments E)
    (add_valuehead : bool) s m tok a o :
  Event (Cpatch_model E m tok a true) o ∈ calls fa true add_valuehead s ->
  use_unsloth a = true <->
  Exists (fun ev => is_accelerated ev = true) (calls fa true add_valuehead s).
Proof.
  run_cases fa true add_valuehead s; intros Hin; locate Hin.
  all: apply patch_model_sees_state in Hin as ->.
  all: rewrite ?Exists_app.
  all: erewrite construct_model_flag by eassumption.
  all: split; [tauto|].
  all: intros Hex;
       repeat match type of Hex with
              | _ \/ _ => destruct Hex as [Hex|Hex]
              end;
       try assumption;
       exfalso; revert Hex; apply not_accelerated; from_stage.
Qed.

End OptIn.

(** ** Where the value head is restored from, with the opt-in flag set *)

Section ValueHeadSource.
Context {E : Collaborators} (HE : @preserving E).
Implicit Types (s : state E) (evs : list (event E)) (ev : event E).

Lemma load_valuehead_params_sees_state m vh s path a o :
  Event (Cload_valuehead_params E path a) o
    ∈ emitted (compose_valuehead E m vh) s ->
  a = model_args s /\ restoration_source a path.
Proof.
  unfold emitted. exec; emitted_norm; intros Hin;
    repeat (apply elem_of_cons in Hin as [Hin|Hin];
            [try discriminate; injection Hin as -> -> ?|]);
    try (by apply elem_of_nil in Hin);
    (split; [done|]); unfold restoration_source;
    repeat match goal with H : _ = _ |- _ => rewrite H end; done.
Qed.

Lemma construct_model_drops_adapters cfg kw s m s' :
  construct_model E cfg kw true s = (Ok m, s') ->
  use_unsloth (model_args s) = true ->
  truthy_paths (adapter_name_or_path (model_args s')) = false /\
  model_name_or_path (model_args s') = model_name_or_path (model_args s).
Proof.
  exec; intros [= ? ?] Hu; subst; cbn; try done; congruence.
Qed.

(** X8.  With the opt-in flag set on entry to a trainable run, and collaborators
    that leave [model_args] alone, value-head weights are only ever looked
    up at [model_args.model_name_or_path]: the adapter paths the caller
    gave, if any, have been dropped by then. *)
Theorem value_head_source_with_opt_in (fa : FinetuningArguments E)
    (add_valuehead : bool) s path a o :
  use_unsloth (model_args s) = true ->
  Event (Cload_valuehead_params E path a) o
    ∈ calls fa true add_valuehead s ->
  path = model_name_or_path (model_args s).
Proof.
  intros Hu. run_cases fa true add_valuehead s; intros Hin; locate Hin.
  all: apply load_valuehead_params_sees_state in Hin as [-> Hsrc].
  all: repeat match goal with
         | H : load_tokenizer_and_config E ?tr ?s0 = (_, ?s1) |- _ =>
           let K := fresh "K" in
           pose proof (load_tokenizer_and_config_keeps HE tr s0) as K;
           rewrite H in K; cbn in K; clear H
         | H : patch_and_adapt E ?tok ?cfg ?m ?fa ?tr ?s0 = (_, ?s1) |- _ =>
           let K := fresh "K" in
           pose proof (patch_and_adapt_keeps HE tok cfg m fa tr s0) as K;
           rewrite H in K; cbn in K; clear H
         | H : construct_model E _ _ true ?s0 = (Ok _, _) |- _ =>
           apply construct_model_drops_adapters in H as [? ?];
           [|congruence]
         end.
  all: unfold restoration_source in Hsrc;
       destruct (adapter_name_or_path (model_args _)) as [[|]|] eqn:Ha
         in Hsrc;
       try discriminate; try congruence.
  all: repeat match goal with
         | H : truthy_paths (adapter_name_or_path (model_args ?s0)) = false,
           K : model_args _ = model_args ?s0, Ha : _ = Some (_ :: _) |- _ =>
           rewrite <- K, Ha in H; discriminate H
         end.
Qed.

End ValueHeadSource.

(** ** What is logged *)

(** Settles a statement on the explicit records of a stage. *)
Ltac logged_leaf :=
  rewrite <- ?app_assoc; rewrite ?drop_app_length, ?drop_all; cbn;
  by repeat constructor.

Section Logged.
Context {E : Collaborators}.
Implicit Types (s : state E).

Lemma load_model_and_tokenizer_rspec P fa tr vh :
  (forall t, P (LogRecord WARNING (UnslothUnsupportedType t))) ->
  P (LogRecord WARNING UnslothNoAdapters) ->
  P (LogRecord WARNING TaggingUnavailable) ->
  (forall path, P (LogRecord INFO (LoadedValuehead path))) ->
  (forall t a, P (LogRecord INFO (ParamCounts t a))) ->
  P (LogRecord INFO InferenceOnly) ->
  rspec P (load_model_and_tokenizer E fa tr vh).
Proof.
  intros. unfold load_model_and_tokenizer.
  apply rspec_bind; [apply load_tokenizer_and_config_rspec|].
  intros [[tok cfg] kw].
  apply rspec_bind; [by apply construct_model_rspec|intros ?].
  apply rspec_bind; [apply patch_and_adapt_rspec|intros ?].
  apply rspec_bind; [by apply compose_valuehead_rspec|intros ?].
  apply rspec_bind; [apply finalize_mode_rspec|intros ?].
  apply rspec_bind; [by apply report_parameters_rspec|intros ?].
  rspec_tac.
Qed.

Lemma construct_model_quiet cfg kw s :
  Forall (fun r => unsloth_message (rec_msg r) = false)
    (logged (construct_model E cfg kw false) s).
Proof. unfold logged. exec; logged_leaf. Qed.

Lemma compose_valuehead_quiet m s : logged (compose_valuehead E m false) s = [].
Proof. unfold logged. exec. by rewrite drop_all. Qed.

(** X9.  The log of a run.  The loader only appends to the log.  Every record
    it adds has the level of its message: the two Unsloth messages and the
    tagging message are warnings, the value-head, parameter-count and
    inference messages are informational.  A run with [is_trainable] false
    logs no Unsloth message, and a run with [add_valuehead] false no
    value-head message. *)
Theorem log_of_a_run (fa : FinetuningArguments E)
    (is_trainable add_valuehead : bool) s :
  records (load_model_and_tokenizer E fa is_trainable add_valuehead s).2
    = records s ++ log_of fa is_trainable add_valuehead s /\
  Forall (fun r => rec_level r = level_of (rec_msg r))
    (log_of fa is_trainable add_valuehead s) /\
  Forall (fun r => unsloth_message (rec_msg r) = false)
    (log_of fa false add_valuehead s) /\
  Forall (fun r => valuehead_message (rec_msg r) = false)
    (log_of fa is_trainable false s).
Proof.
  split_and!.
  - eapply logged_spec, (load_model_and_tokenizer_rspec (fun _ => True));
      done.
  - eapply logged_spec, load_model_and_tokenizer_rspec; done.
  - run_cases fa false add_valuehead s; rewrite ?Forall_app; split_and?;
      first
        [ apply construct_model_quiet
        | eapply logged_spec, load_tokenizer_and_config_rspec
        | eapply logged_spec, patch_and_adapt_rspec
        | eapply logged_spec, finalize_mode_rspec
        | eapply logged_spec, compose_valuehead_rspec; done
        | eapply logged_spec, report_parameters_rspec; done ].
  - run_cases fa is_trainable false s;
      rewrite ?compose_valuehead_quiet, ?Forall_app; split_and?;
      first
        [ by constructor
        | eapply logged_spec, load_tokenizer_and_config_rspec
        | eapply logged_spec, patch_and_adapt_rspec
        | eapply logged_spec, finalize_mode_rspec
        | eapply logged_spec, construct_model_rspec; done
        | eapply logged_spec, report_parameters_rspec; done ].
Qed.

End Logged.

(** ** What the tokenizer and the configuration are loaded with *)

Section Resolving.
Context {E : Collaborators}.
Implicit Types (s : state E) (evs : list (event E)) (ev : event E).

Lemma load_tokenizer_and_config_resolves tr s :
  Forall
    (resolves_with (try_download_model_from_ms E (model_args s) (world s)).1.2)
    (emitted (load_tokenizer_and_config E tr) s).
Proof. unfold emitted. exec; emitted_norm; by repeat constructor. Qed.

(** X10.  The tokenizer and the configuration are loaded from the same place.
    Whatever [try_download_model_from_ms] leaves in [model_args] is what
    counts: [AutoTokenizer.from_pretrained] -- always with
    [padding_side="right"] -- and [AutoConfig.from_pretrained] are both
    given its [model_name_or_path] and the same keyword dictionary, built
    from its [cache_dir], [model_revision] and [hf_hub_token], in which
    [trust_remote_code] is [True]. *)
Theorem resolved_after_download (fa : FinetuningArguments E)
    (is_trainable add_valuehead : bool) s :
  Forall
    (resolves_with (try_download_model_from_ms E (model_args s) (world s)).1.2)
    (calls fa is_trainable add_valuehead s) /\
  forall a,
    base_kwargs (E := E) a !! "trust_remote_code"%string = Some (KBool true)
    /\
    dom (base_kwargs (E := E) a)
    = {["trust_remote_code"; "cache_dir"; "revision"; "token"]}%string.
Proof.
  split.
  - run_cases fa is_trainable add_valuehead s; rewrite ?Forall_app;
      split_and?;
      first
        [ apply load_tokenizer_and_config_resolves
        | eapply stage_calls; [solve [auto with stages]|];
          intros [[] ?]; unfold in_stage, resolves_with; cbn; done ].
  - intros a. split; [done|]. unfold base_kwargs.
    rewrite !dom_insert_L, dom_empty_L. set_solver.
Qed.

End Resolving.

(** ** No call is made twice *)

(** Settles [descends] on the explicit calls of a stage. *)
Ltac descends_leaf :=
  emitted_norm; split;
  repeat first [constructor|progress cbn|progress unfold earlier|lia].

Section Once.
Context {E : Collaborators}.
Implicit Types (s : state E) (evs : list (event E)) (ev : event E).

Lemma descends_app lo mid hi evs1 evs2 :
  descends lo mid evs1 -> descends mid hi evs2 -> (lo <= mid <= hi)%nat ->
  descends lo hi (evs1 ++ evs2).
Proof.
  intros [S1 B1] [S2 B2] ?. split.
  - apply StronglySorted_app. split_and!; [|done|done].
    intros ev1 ev2 Hin1 Hin2. rewrite Forall_forall in B1, B2.
    specialize (B1 _ Hin1). specialize (B2 _ Hin2). unfold earlier. lia.
  - apply Forall_app. split; (eapply Forall_impl; [eassumption|]); cbn;
      intros; lia.
Qed.

Lemma descends_resolve tr s :
  descends 0 5 (emitted (load_tokenizer_and_config E tr) s).
Proof. unfold emitted. exec; descends_leaf. Qed.

Lemma descends_construct cfg kw tr s :
  descends 5 10 (emitted (construct_model E cfg kw tr) s).
Proof. unfold emitted. exec; descends_leaf. Qed.

Lemma descends_adapt tok cfg m fa tr s :
  descends 10 13 (emitted (patch_and_adapt E tok cfg m fa tr) s).
Proof. unfold emitted. exec; descends_leaf. Qed.

Lemma descends_valuehead m vh s :
  descends 13 17 (emitted (compose_valuehead E m vh) s).
Proof. unfold emitted. exec; descends_leaf. Qed.

Lemma descends_finalize m tr s :
  descends 17 21 (emitted (finalize_mode E m tr) s).
Proof. unfold emitted. exec; descends_leaf. Qed.

Lemma descends_report m tr s :
  descends 21 22 (emitted (report_parameters E m tr) s).
Proof. unfold emitted. exec; descends_leaf. Qed.

Lemma descends_widen lo hi lo' hi' evs :
  descends lo hi evs -> (lo' <= lo)%nat -> (hi <= hi')%nat ->
  descends lo' hi' evs.
Proof.
  intros [S B] ? ?. split; [done|]. eapply Forall_impl; [exact B|]. cbn.
  intros. lia.
Qed.

Lemma calls_descend fa tr vh s : descends 0 22 (calls fa tr vh s).
Proof.
  run_cases fa tr vh s.
  - eapply descends_widen; [apply descends_resolve|lia..].
  - eapply descends_app; [apply descends_resolve| |lia].
    eapply descends_widen; [apply descends_construct|lia..].
  - eapply descends_app; [apply descends_resolve| |lia].
    eapply descends_app; [apply descends_construct| |lia].
    eapply descends_widen; [apply descends_adapt|lia..].
  - eapply descends_app; [apply descends_resolve| |lia].
    eapply descends_app; [apply descends_construct| |lia].
    eapply descends_app; [apply descends_adapt| |lia].
    eapply descends_widen; [apply descends_valuehead|lia..].
  - eapply descends_app; [apply descends_resolve| |lia].
    eapply descends_app; [apply descends_construct| |lia].
    eapply descends_app; [apply descends_adapt| |lia].
    eapply descends_app; [apply descends_valuehead| |lia].
    eapply descends_widen; [apply descends_finalize|lia..].
  - eapply descends_app; [apply descends_resolve| |lia].
    eapply descends_app; [apply descends_construct| |lia].
    eapply descends_app; [apply descends_adapt| |lia].
    eapply descends_app; [apply descends_valuehead| |lia].
    eapply descends_app; [apply descends_finalize| |lia].
    apply descends_report.
  - eapply descends_app; [apply descends_resolve| |lia].
    eapply descends_app; [apply descends_construct| |lia].
    eapply descends_app; [apply descends_adapt| |lia].
    eapply descends_app; [apply descends_valuehead| |lia].
    eapply descends_app; [apply descends_finalize| |lia].
    apply descends_report.
Qed.

(** X11.  Nothing is retried.  The calls of a run go strictly down the source
    text of the loader, so no collaborator is called twice in a run: the
    places of the calls in the source are pairwise different. *)
Theorem no_call_is_repeated (fa : FinetuningArguments E)
    (is_trainable add_valuehead : bool) s :
  StronglySorted earlier (calls fa is_trainable add_valuehead s) /\
  NoDup ((fun ev => position (ev_call ev))
           <$> calls fa is_trainable add_valuehead s).
Proof.
  destruct (calls_descend fa is_trainable add_valuehead s) as [S _].
  split; [done|].
  induction S as [|ev evs _ IH Hev]; cbn; constructor; [|done].
  intros (ev' & Heq & Hin)%list_elem_of_fmap.
  rewrite Forall_forall in Hev. specialize (Hev _ Hin). unfold earlier in Hev.
  lia.
Qed.

End Once.

(** ** The [model_args] the collaborators see *)

(** Under [preserving], replaces the [model_args] a collaborator left by
    the ones it was given. *)
Ltac use_preserving HE :=
  repeat match goal with
         | H : try_download_model_from_ms _ ?a ?w = (_, ?a', _) |- _ =>
           let K := fresh in
           pose proof (try_download_preserves HE a w) as K;
           rewrite H in K; cbn in K; subst a'; clear H
         | H : patch_config _ ?c ?t ?a ?kw ?tr ?w = (_, ?a', _, _) |- _ =>
           let K := fresh in
           pose proof (patch_config_preserves HE c t a kw tr w) as K;
           rewrite H in K; cbn in K; subst a'; clear H
         | H : patch_model _ ?m ?t ?a ?tr ?w = (_, ?a', _) |- _ =>
           let K := fresh in
           pose proof (patch_model_preserves HE m t a tr w) as K;
           rewrite H in K; cbn in K; subst a'; clear H
         | H : init_adapter _ ?m ?a ?fa ?tr ?w = (_, ?a', _) |- _ =>
           let K := fresh in
           pose proof (init_adapter_preserves HE m a fa tr w) as K;
           rewrite H in K; cbn in K; subst a'; clear H
         end.

Section Seen.
Context {E : Collaborators} (HE : @preserving E).
Implicit Types (s : state E) (evs : list (event E)) (ev : event E).

Lemma load_tokenizer_and_config_hands tr s :
  Forall (handed_from s) (emitted (load_tokenizer_and_config E tr) s).
Proof.
  unfold emitted, handed_from. exec; use_preserving HE; emitted_norm;
    repeat constructor; cbn; intros; congruence.
Qed.

Lemma patch_and_adapt_hands tok cfg m fa tr s :
  Forall (handed_from s) (emitted (patch_and_adapt E tok cfg m fa tr) s).
Proof.
  unfold emitted, handed_from. exec; use_preserving HE; emitted_norm;
    repeat constructor; cbn; intros; congruence.
Qed.

Lemma compose_valuehead_hands m vh s :
  Forall (handed_from s) (emitted (compose_valuehead E m vh) s).
Proof.
  unfold emitted, handed_from. exec; emitted_norm;
    repeat constructor; cbn; intros; congruence.
Qed.

Lemma compose_valuehead_keeps m vh : keeps (compose_valuehead E m vh).
Proof. unfold compose_valuehead. keeps_tac HE. Qed.

Lemma finalize_mode_keeps m tr : keeps (finalize_mode E m tr).
Proof. unfold finalize_mode. keeps_tac HE. Qed.

Lemma report_parameters_keeps m tr : keeps (report_parameters E m tr).
Proof. unfold report_parameters. keeps_tac HE. Qed.

(** X12.  Provided the collaborators leave [model_args] alone: the resolver and
    the configuration patcher are handed [model_args] as the caller gave
    them; every collaborator called after the constructor selector --
    [patch_model], [init_adapter], [load_valuehead_params] -- is handed them
    as the run leaves them, with the selector's decisions already in. *)
Theorem collaborators_see_settled_model_args (fa : FinetuningArguments E)
    (is_trainable add_valuehead : bool) s :
  Forall
    (fun ev =>
       forall a, margs_handed ev = Some a ->
       if decide (stage_of (ev_call ev) = Resolve) then a = model_args s
       else
         a = model_args
               (load_model_and_tokenizer E fa is_trainable add_valuehead s).2)
    (calls fa is_trainable add_valuehead s).
Proof.
  run_cases fa is_trainable add_valuehead s.
  all: apply Forall_forall; intros ev Hin a Ha.
  all: repeat (apply elem_of_app in Hin as [Hin|Hin]).
  all: repeat match goal with
         | H : patch_and_adapt E ?tok ?cfg ?m ?fa ?tr ?s0 = (_, ?s1) |- _ =>
           let K := fresh "K" in
           pose proof (patch_and_adapt_keeps HE tok cfg m fa tr s0) as K;
           rewrite H in K; cbn in K; clear H
         | H : compose_valuehead E ?m ?vh ?s0 = (_, ?s1) |- _ =>
           let K := fresh "K" in
           pose proof (compose_valuehead_keeps m vh s0) as K;
           rewrite H in K; cbn in K; clear H
         | H : finalize_mode E ?m ?tr ?s0 = (_, ?s1) |- _ =>
           let K := fresh "K" in
           pose proof (finalize_mode_keeps m tr s0) as K;
           rewrite H in K; cbn in K; clear H
         | H : report_parameters E ?m ?tr ?s0 = (_, ?s1) |- _ =>
           let K := fresh "K" in
           pose proof (report_parameters_keeps m tr s0) as K;
           rewrite H in K; cbn in K; clear H
         end.
  all: lazymatch type of Hin with
       | _ ∈ emitted (load_tokenizer_and_config _ _) _ =>
         pose proof (proj1 (Forall_forall _ _)
                       (emitted_resolve _ _) _ Hin) as Hst;
         eapply Forall_forall in Hin;
           [|apply load_tokenizer_and_config_hands]
       | _ ∈ emitted (construct_model _ _ _ _) _ =>
         pose proof (proj1 (Forall_forall _ _)
                       (emitted_construct _ _ _ _) _ Hin) as Hst
       | _ ∈ emitted (patch_and_adapt _ _ _ _ _ _) _ =>
         pose proof (proj1 (Forall_forall _ _)
                       (emitted_adapt _ _ _ _ _ _) _ Hin) as Hst;
         eapply Forall_forall in Hin; [|apply patch_and_adapt_hands]
       | _ ∈ emitted (compose_valuehead _ _ _) _ =>
         pose proof (proj1 (Forall_forall _ _)
                       (emitted_valuehead _ _ _) _ Hin) as Hst;
         eapply Forall_forall in Hin; [|apply compose_valuehead_hands]
       | _ ∈ emitted (finalize_mode _ _ _) _ =>
         pose proof (proj1 (Forall_forall _ _)
                       (emitted_finalize _ _ _) _ Hin) as Hst
       | _ ∈ emitted (report_parameters _ _ _) _ =>
         pose proof (proj1 (Forall_forall _ _)
                       (emitted_report _ _ _) _ Hin) as Hst
       end.
  all: unfold in_stage in Hst; rewrite Hst; cbn.
  all: try (specialize (Hin _ Ha); congruence).
  all: destruct ev as [[] ?]; cbn in *; congruence.
Qed.

End Seen.

(** ** The artifact a model is built from *)

Section Artifact.
Context {E : Collaborators}.
Implicit Types (s : state E) (evs : list (event E)) (ev : event E).
Hypothesis patch_config_leaves_model_args :
  forall cfg tok a kw tr w, (patch_config E cfg tok a kw tr w).1.1.2 = a.

Lemma load_tokenizer_and_config_settles tr s r s1 :
  load_tokenizer_and_config E tr s = (Ok r, s1) ->
  model_args s1 = (try_download_model_from_ms E (model_args s) (world s)).1.2.
Proof.
  exec;
    repeat match goal with
           | H : patch_config _ ?c ?t ?a ?kw ?tr' ?w = (_, ?a', _, _) |- _ =>
             let K := fresh in
             pose proof (patch_config_leaves_model_args c t a kw tr' w) as K;
             rewrite H in K; cbn in K; subst a'; clear H
           end;
    by intros [= <- <-].
Qed.

Lemma construct_model_constructs_from cfg kw tr s :
  Forall (constructs_from (model_args s))
    (emitted (construct_model E cfg kw tr) s).
Proof. unfold emitted. exec; emitted_norm; by repeat constructor. Qed.

(** X13.  One artifact.  Provided [patch_config] does not assign to
    [model_args]: whichever constructor builds the model, it is given the
    [model_name_or_path] and the [compute_dtype] that
    [try_download_model_from_ms] left in [model_args] -- the name the
    tokenizer and the configuration were loaded from -- and an accelerated
    constructor is given its [model_max_length] and [hf_hub_token] as well,
    with [load_in_4bit] set exactly when its [quantization_bit] is 4. *)
Theorem model_built_from_resolved_artifact (fa : FinetuningArguments E)
    (is_trainable add_valuehead : bool) s :
  Forall
    (constructs_from
       (try_download_model_from_ms E (model_args s) (world s)).1.2)
    (calls fa is_trainable add_valuehead s).
Proof.
  run_cases fa is_trainable add_valuehead s; rewrite ?Forall_app;
    split_and?;
    first
      [ match goal with
        | H : load_tokenizer_and_config E _ _ = (Ok _, _) |- _ =>
          rewrite <- (load_tokenizer_and_config_settles _ _ _ _ H);
          apply construct_model_constructs_from
        end
      | eapply stage_calls; [solve [auto with stages]|];
        intros [[] ?]; unfold in_stage, constructs_from; cbn; done ].
Qed.

End Artifact.

(** ** The statements of the later sections, on concrete runs *)

Module MoreRuns.
Import Toy Cases.

(** A trainable gpt2 run returns, having called one constructor. *)
Lemma at_most_one_model_constructed_witness :
  (load_model_and_tokenizer G tt true false (start_gpt2 false)).1
    = Ok (E := G) ("AutoModelForCausalLM"%string, "tokenizer of m"%string) /\
  count_calls is_constructor (calls (E := G) tt true false (start_gpt2 false))
    = 1%nat.
Proof.
  assert ((load_model_and_tokenizer G tt true false (start_gpt2 false)).1
          = Ok (E := G)
              ("AutoModelForCausalLM"%string, "tokenizer of m"%string)) as H
    by (vm_compute; reflexivity).
  split; [exact H|].
  exact (proj2 (at_most_one_model_constructed (E := G) tt true false
                  (start_gpt2 false)) _ H).
Defined.

(** An inference run on gpt2: the model handed back is the one the cast
    returned. *)
Lemma model_handle_is_current_witness :
  (load_model_and_tokenizer G tt false false (start_gpt2 false)).1
    = Ok (E := G) ("AutoModelForCausalLM"%string, "tokenizer of m"%string) /\
  latest model_made None (calls (E := G) tt false false (start_gpt2 false))
    = Some "AutoModelForCausalLM"%string.
Proof.
  assert ((load_model_and_tokenizer G tt false false (start_gpt2 false)).1
          = Ok (E := G)
              ("AutoModelForCausalLM"%string, "tokenizer of m"%string)) as H
    by (vm_compute; reflexivity).
  split; [exact H|].
  exact (proj2 (model_handle_is_current (E := G) tt false false
                  (start_gpt2 false)) _ _ H).
Defined.

(** The same run: the tokenizer handed back is the one that was built. *)
Lemma tokenizer_and_config_flow_witness :
  (load_model_and_tokenizer G tt false false (start_gpt2 false)).1
    = Ok (E := G) ("AutoModelForCausalLM"%string, "tokenizer of m"%string) /\
  latest tokenizer_made None
    (calls (E := G) tt false false (start_gpt2 false))
    = Some "tokenizer of m"%string.
Proof.
  assert ((load_model_and_tokenizer G tt false false (start_gpt2 false)).1
          = Ok (E := G)
              ("AutoModelForCausalLM"%string, "tokenizer of m"%string)) as H
    by (vm_compute; reflexivity).
  split; [exact H|].
  exact (proj2 (proj2 (tokenizer_and_config_flow (E := G) tt false false
                         (start_gpt2 false))) _ _ H).
Defined.

(** A trainable llama run with the opt-in flag: the patcher finds it set. *)
Lemma opt_in_flag_tells_the_path_witness :
  patched_llama ∈ calls (E := L) tt true false start_L /\
  (use_unsloth (args "m" true None) = true <->
   Exists (fun ev => is_accelerated ev = true)
     (calls (E := L) tt true false start_L)).
Proof.
  assert (patched_llama ∈ calls (E := L) tt true false start_L) as Hin.
  { apply list_elem_of_lookup. exists 7%nat. vm_compute. reflexivity. }
  split; [exact Hin|].
  exact (opt_in_flag_tells_the_path (E := L) tt false start_L _ _ _ _ Hin).
Defined.

(** The same, with an adapter path and a value head requested: the head is
    looked up at the model name. *)
Lemma value_head_source_with_opt_in_witness :
  preserving (E := L) /\
  use_unsloth (model_args start_L_adapters) = true /\
  params_looked_up ∈ calls (E := L) tt true true start_L_adapters /\
  "m"%string = model_name_or_path (model_args start_L_adapters).
Proof.
  assert (preserving (E := L)) as HL by (constructor; intros; reflexivity).
  assert (use_unsloth (model_args start_L_adapters) = true) as Hu
    by reflexivity.
  assert (params_looked_up ∈ calls (E := L) tt true true start_L_adapters)
    as Hin.
  { apply list_elem_of_lookup. exists 12%nat. vm_compute. reflexivity. }
  split_and!; [exact HL|exact Hu|exact Hin|].
  exact (value_head_source_with_opt_in HL tt true start_L_adapters _ _ _ Hu
           Hin).
Defined.


(** A trainable gpt2 run entered with the opt-in flag set. *)
Lemma collaborators_see_settled_model_args_witness :
  preserving (E := G) /\
  Forall
    (fun ev =>
       forall a, margs_handed ev = Some a ->
       if decide (stage_of (ev_call ev) = Resolve)
       then a = model_args (start_gpt2 true)
       else
         a = model_args
               (load_model_and_tokenizer G tt true false (start_gpt2 true)).2)
    (calls (E := G) tt true false (start_gpt2 true)).
Proof.
  assert (preserving (E := G)) as HG by (constructor; intros; reflexivity).
  split; [exact HG|].
  exact (collaborators_see_settled_model_args HG tt true false
           (start_gpt2 true)).
Defined.

(** A trainable llama run with the opt-in flag set. *)
Lemma model_built_from_resolved_artifact_witness :
  (forall cfg tok a kw tr w, (patch_config L cfg tok a kw tr w).1.1.2 = a) /\
  Forall
    (constructs_from
       (try_download_model_from_ms L (model_args start_L) (world start_L)).1.2)
    (calls (E := L) tt true false start_L).
Proof.
  assert (forall cfg tok a kw tr w,
             (patch_config L cfg tok a kw tr w).1.1.2 = a) as HL
    by (intros; reflexivity).
  split; [exact HL|].
  exact (model_built_from_resolved_artifact HL tt true false start_L).
Defined.

End MoreRuns.
